(** * Mathison Python SDKs: a shallow embedding of the two HTTP clients

    Two packages are embedded.

    - [ClientA]: [sdks/python/mathison_sdk/__init__.py], the chat/beams
      client built on [requests.Session].
    - [ClientB]: [version-one/sdks/python/mathison_sdk/client.py], the
      genome/jobs/memory-graph client built on [httpx.Client] and
      [httpx.AsyncClient].

    Python values are the inductive [pyval]; dictionaries are stdpp finite
    maps keyed by strings.  Calls run in a state-and-exception monad [M]
    over a [World] that holds the mocked wire, the log of the requests
    handed to the HTTP library, and the set of connection pools still
    open.

    [client.py] as stored holds the two characters backslash-n between
    consecutive methods where its generator meant line breaks; the
    embedding reads every method as the template lays it out, one [def]
    per method. *)

From stdpp Require Import gmap strings list fin_maps pretty.
From Stdlib Require Import ZArith Floats Ascii.

Set Warnings "-register-all".
Set Default Proof Using "Type".

(** ** Python values *)

Inductive pyval : Type :=
| PNone
| PBool (b : bool)
| PInt (z : Z)
| PFloat (f : float)
| PStr (s : string)
| PList (l : list pyval)
| PDict (d : gmap string pyval).

Abbreviation dict := (gmap string pyval).

(** Python's truth test ([if x:]), per static type of the argument. *)
Class Truthy (A : Type) := truthy : A -> bool.
Global Hint Mode Truthy ! : typeclass_instances.

Global Instance truthy_bool : Truthy bool := fun b => b.
Global Instance truthy_Z : Truthy Z := fun z => negb (z =? 0)%Z.
Global Instance truthy_string : Truthy string :=
  fun s => match s with EmptyString => false | String _ _ => true end.
Global Instance truthy_list {A} : Truthy (list A) :=
  fun l => match l with [] => false | _ :: _ => true end.
Global Instance truthy_gmap {A} : Truthy (gmap string A) :=
  fun d => bool_decide (d ≠ ∅).
Global Instance truthy_option {A} `{Truthy A} : Truthy (option A) :=
  fun o => match o with Some a => truthy a | None => false end.
Global Instance truthy_pyval : Truthy pyval :=
  fun v =>
    match v with
    | PNone => false
    | PBool b => b
    | PInt z => truthy z
    | PFloat f => negb (PrimFloat.eqb f 0%float)
    | PStr s => truthy s
    | PList l => truthy l
    | PDict d => truthy d
    end.

(** Typed arguments as the Python objects they are at run time. *)
Class ToPy (A : Type) := to_py : A -> pyval.
Global Hint Mode ToPy ! : typeclass_instances.

Global Instance to_py_pyval : ToPy pyval := fun v => v.
Global Instance to_py_bool : ToPy bool := PBool.
Global Instance to_py_Z : ToPy Z := PInt.
Global Instance to_py_string : ToPy string := PStr.
Global Instance to_py_dict : ToPy dict := PDict.
Global Instance to_py_list {A} `{ToPy A} : ToPy (list A) :=
  fun l => PList (map to_py l).
Global Instance to_py_option {A} `{ToPy A} : ToPy (option A) :=
  fun o => match o with Some a => to_py a | None => PNone end.

Definition is_None (v : pyval) : bool :=
  match v with PNone => true | _ => false end.

(** ** Exceptions *)

Inductive exc_class : Type :=
| Exception
| TypeError
| KeyError
| AttributeError
| RuntimeError
| JSONDecodeError                (* json.JSONDecodeError, a ValueError *)
| requests_HTTPError
| requests_ConnectionError
| requests_ConnectTimeout
| requests_ReadTimeout
| requests_TooManyRedirects
| requests_InvalidURL
| requests_JSONDecodeError
| httpx_HTTPStatusError
| httpx_ConnectError
| httpx_ConnectTimeout
| httpx_ReadTimeout
| pydantic_ValidationError
| OtherError (name : string).

Global Instance exc_class_eq_dec : EqDecision exc_class.
Proof. solve_decision. Defined.

(** An exception object: its class, [str(e)], and [__context__], the
    exception that was being handled when this one was raised. *)
Inductive exc : Type :=
| Exc (cls : exc_class) (msg : string) (context : option exc).

Definition exc_cls (e : exc) : exc_class := let 'Exc c _ _ := e in c.
Definition exc_str (e : exc) : string := let 'Exc _ m _ := e in m.
Definition exc_context (e : exc) : option exc := let 'Exc _ _ x := e in x.

(** [isinstance(e, requests.exceptions.RequestException)]. *)
Definition is_RequestException (e : exc) : bool :=
  match exc_cls e with
  | requests_HTTPError | requests_ConnectionError | requests_ConnectTimeout
  | requests_ReadTimeout | requests_TooManyRedirects | requests_InvalidURL
  | requests_JSONDecodeError => true
  | _ => false
  end.

Inductive result (A : Type) : Type :=
| Ret (a : A)
| Raise (e : exc).
Global Arguments Ret {A} a.
Global Arguments Raise {A} e.

Definition bindR {A B} (r : result A) (k : A -> result B) : result B :=
  match r with Ret a => k a | Raise e => Raise e end.

Fixpoint mapR {A B} (f : A -> result B) (l : list A) : result (list B) :=
  match l with
  | [] => Ret []
  | a :: l' => bindR (f a) (fun b => bindR (mapR f l') (fun bs => Ret (b :: bs)))
  end.

(** ** The wire, the request log and the open pools *)

Record Request : Type := mkRequest {
  rq_method : string;
  rq_url : string;
  rq_headers : gmap string string;
  rq_params : option dict;
  rq_json : option dict;
  rq_timeout : pyval;
}.

Record Response : Type := mkResponse {
  status_code : Z;
  reason : string;
  url : string;
  json_body : option pyval;   (* the body decoded as JSON, when it is JSON *)
}.

Inductive outcome : Type :=
| Responds (r : Response)
| Fails (e : exc).

Record World : Type := mkWorld {
  wire : Request -> outcome;  (* the transport, mocked *)
  sent : list Request;        (* requests handed to the HTTP library *)
  live : gset nat;            (* connection pools not yet closed *)
  fresh : nat;                (* next pool handle *)
}.

Definition M (A : Type) : Type := World -> result A * World.

Definition ret {A} (a : A) : M A := fun w => (Ret a, w).
Definition raise {A} (e : exc) : M A := fun w => (Raise e, w).
Definition bind {A B} (m : M A) (k : A -> M B) : M B :=
  fun w => match m w with
           | (Ret a, w') => k a w'
           | (Raise e, w') => (Raise e, w')
           end.
Definition lift {A} (r : result A) : M A := fun w => (r, w).

(** [try: m except E as e: h e], the handler deciding on [e] whether the
    clause matches. *)
Definition try_except {A} (m : M A) (catches : exc -> bool) (h : exc -> M A) : M A :=
  fun w => match m w with
           | (Raise e, w') => if catches e then h e w' else (Raise e, w')
           | r => r
           end.

Declare Scope monad_scope.
Delimit Scope monad_scope with M.
Declare Scope result_scope.
Delimit Scope result_scope with R.
Notation "x <- m ;; k" := (bind m (fun x => k))
  (at level 100, m at next level, right associativity) : monad_scope.
Notation "m ;; k" := (bind m (fun _ => k))
  (at level 100, right associativity) : monad_scope.
Notation "x <- m ;; k" := (bindR m (fun x => k))
  (at level 100, m at next level, right associativity) : result_scope.
Notation "m ;; k" := (bindR m (fun _ => k))
  (at level 100, right associativity) : result_scope.

Definition run {A} (m : M A) (w : World) : result A := (m w).1.
Definition after {A} (m : M A) (w : World) : World := (m w).2.

(** ** Built-in operations on values *)

(** [v[k]] for a string key. *)
Definition subscript (v : pyval) (k : string) : result pyval :=
  match v with
  | PDict d =>
      match d !! k with
      | Some x => Ret x
      | None => Raise (Exc KeyError ("'" +:+ k +:+ "'") None)
      end
  | PList _ =>
      Raise (Exc TypeError "list indices must be integers or slices, not str" None)
  | PStr _ => Raise (Exc TypeError "string indices must be integers" None)
  | PNone => Raise (Exc TypeError "'NoneType' object is not subscriptable" None)
  | PBool _ => Raise (Exc TypeError "'bool' object is not subscriptable" None)
  | PInt _ => Raise (Exc TypeError "'int' object is not subscriptable" None)
  | PFloat _ => Raise (Exc TypeError "'float' object is not subscriptable" None)
  end.

Definition type_name (v : pyval) : string :=
  match v with
  | PNone => "NoneType"
  | PBool _ => "bool"
  | PInt _ => "int"
  | PFloat _ => "float"
  | PStr _ => "str"
  | PList _ => "list"
  | PDict _ => "dict"
  end.

(** [v.get(k)]: only dictionaries have the method. *)
Definition dict_get (v : pyval) (k : string) : result pyval :=
  match v with
  | PDict d => Ret (default PNone (d !! k))
  | _ =>
      Raise (Exc AttributeError
               ("'" +:+ type_name v +:+ "' object has no attribute 'get'") None)
  end.

Fixpoint chars_of (s : string) : list pyval :=
  match s with
  | EmptyString => []
  | String c s' => PStr (String c EmptyString) :: chars_of s'
  end.

(** [for x in v]: the elements of a list, the characters of a string, the
    keys of a dictionary (in the map's order, not in insertion order). *)
Definition iterate (v : pyval) : result (list pyval) :=
  match v with
  | PList l => Ret l
  | PStr s => Ret (chars_of s)
  | PDict d => Ret (PStr <$> (map_to_list d).*1)
  | _ =>
      Raise (Exc TypeError ("'" +:+ type_name v +:+ "' object is not iterable") None)
  end.

(** [str.rstrip(chars)]. *)
Fixpoint char_in (c : ascii) (chars : string) : bool :=
  match chars with
  | EmptyString => false
  | String c' rest => if Ascii.eqb c c' then true else char_in c rest
  end.

Fixpoint rstrip (chars : string) (s : string) : string :=
  match s with
  | EmptyString => EmptyString
  | String c s' =>
      match rstrip chars s' with
      | EmptyString => if char_in c chars then EmptyString else String c EmptyString
      | r => String c r
      end
  end.

(** Whether [s] ends with the character [c]. *)
Fixpoint ends_with (c : ascii) (s : string) : bool :=
  match s with
  | EmptyString => false
  | String c' EmptyString => Ascii.eqb c' c
  | String _ s' => ends_with c s'
  end.

(** [f"{x}"] for an optional string: [str(None)] is ["None"]. *)
Definition fmt (o : option string) : string :=
  match o with Some s => s | None => "None" end.

(** ** The [requests] library, as far as Client A uses it *)

Module requests.

Record Session : Type := mkSession {
  headers : gmap string string;
  pool : nat;
}.

(** [requests.utils.default_headers()], the version being the oldest one
    [setup.py] admits. *)
Definition default_headers : gmap string string :=
  <["User-Agent" := "python-requests/2.28.0"]>
    (<["Accept-Encoding" := "gzip, deflate"]>
       (<["Accept" := "*/*"]> (<["Connection" := "keep-alive"]> ∅))).

(** [requests.Session()]. *)
Definition Session_new : M Session :=
  fun w =>
    (Ret (mkSession default_headers (fresh w)),
     mkWorld (wire w) (sent w) ({[fresh w]} ∪ live w) (S (fresh w))).

(** [session.headers[k] = v]. *)
Definition set_header (s : Session) (k v : string) : Session :=
  mkSession (<[k := v]> (headers s)) (pool s).

(** [session.request(method=, url=, json=, params=, timeout=)]: the
    session's headers go out with every request. *)
Definition request (s : Session) (method url : string)
    (json params : option dict) (timeout : pyval) : M Response :=
  fun w =>
    let rq := mkRequest method url (headers s) params json timeout in
    let w' := mkWorld (wire w) (sent w ++ [rq]) (live w) (fresh w) in
    match wire w rq with
    | Responds r => (Ret r, w')
    | Fails e => (Raise e, w')
    end.

(** [Response.raise_for_status()]: an [HTTPError] for 4xx and 5xx. *)
Definition raise_for_status (r : Response) : result unit :=
  if bool_decide (400 <= status_code r < 500)%Z then
    Raise (Exc requests_HTTPError
             (pretty (status_code r) +:+ " Client Error: " +:+ reason r
                +:+ " for url: " +:+ url r) None)
  else if bool_decide (500 <= status_code r < 600)%Z then
    Raise (Exc requests_HTTPError
             (pretty (status_code r) +:+ " Server Error: " +:+ reason r
                +:+ " for url: " +:+ url r) None)
  else Ret ().

(** [Response.json()]. *)
Definition json (r : Response) : result pyval :=
  match json_body r with
  | Some v => Ret v
  | None =>
      Raise (Exc requests_JSONDecodeError
               "Expecting value: line 1 column 1 (char 0)" None)
  end.

End requests.

(** ** Client A: [sdks/python/mathison_sdk/__init__.py] *)

Module ClientA.

(** The dataclasses.  A dataclass checks no field type, so every field
    holds whatever object the response carried. *)
Module ChatMessage.
Record t : Type := mk {
  id : pyval; role : pyval; content : pyval; timestamp : pyval;
  metadata : pyval;
}.
End ChatMessage.

Module SendMessageResponse.
Record t : Type := mk { message : ChatMessage.t; stream_id : pyval }.
End SendMessageResponse.

Module ChatHistoryResponse.
Record t : Type := mk {
  messages : list ChatMessage.t; total : pyval; limit : pyval;
  offset : pyval;
}.
End ChatHistoryResponse.

Module Beam.
Record t : Type := mk {
  beam_id : pyval; kind : pyval; title : pyval; tags : pyval;
  body : pyval; status : pyval; pinned : pyval; updated_at_ms : pyval;
}.
End Beam.

Module BeamQueryResponse.
Record t : Type := mk { beams : list Beam.t; total : pyval }.
End BeamQueryResponse.

Record MathisonClient : Type := mkClient {
  base_url : string;
  api_key : option string;
  timeout : Z;
  session : requests.Session;
}.

Definition default_base_url : string := "http://localhost:3000".
Definition default_timeout : Z := 30.

Definition __init__ (base_url : string) (api_key : option string)
    (timeout : Z) : M MathisonClient :=
  (session <- requests.Session_new ;;
   let session :=
     if truthy api_key
     then requests.set_header session "Authorization" ("Bearer " +:+ fmt api_key)
     else session in
   let session := requests.set_header session "Content-Type" "application/json" in
   ret (mkClient (rstrip "/" base_url) api_key timeout session))%M.

(** [{k: v for k, v in params.items() if v is not None}]. *)
Definition drop_None (params : dict) : dict :=
  filter (fun kv : string * pyval => is_None kv.2 = false) params.

Definition _request (self : MathisonClient) (method path : string)
    (json params : option dict) : M pyval :=
  let url := base_url self +:+ path in
  let params := if truthy params then drop_None <$> params else params in
  try_except
    (response <- requests.request (session self) method url json params
                   (to_py (timeout self)) ;;
     lift (requests.raise_for_status response) ;;
     lift (requests.json response))%M
    is_RequestException
    (fun e => raise (Exc Exception ("API request failed: " +:+ exc_str e) (Some e))).

(** *** Health and status *)

Definition health (self : MathisonClient) : M pyval :=
  _request self "GET" "/health" None None.

Definition get_status (self : MathisonClient) : M pyval :=
  _request self "GET" "/api/status" None None.

Definition get_identity (self : MathisonClient) : M pyval :=
  _request self "GET" "/api/identity" None None.

(** *** Chat *)

(** The [ChatMessage(id=m['id'], ...)] expression that [send_message]
    and [get_chat_history] both spell out. *)
Definition ChatMessage_of (m : pyval) : result ChatMessage.t :=
  (id <- subscript m "id" ;;
   role <- subscript m "role" ;;
   content <- subscript m "content" ;;
   timestamp <- subscript m "timestamp" ;;
   metadata <- dict_get m "metadata" ;;
   Ret (ChatMessage.mk id role content timestamp metadata))%R.

Definition send_message (self : MathisonClient) (content : string)
    : M SendMessageResponse.t :=
  (data <- _request self "POST" "/api/chat/send"
             (Some {[ "content" := to_py content ]}) None ;;
   lift (msg_data <- subscript data "message" ;;
         message <- ChatMessage_of msg_data ;;
         stream_id <- dict_get data "stream_id" ;;
         Ret (SendMessageResponse.mk message stream_id))%R)%M.

Definition get_chat_history (self : MathisonClient)
    (limit offset : option Z) : M ChatHistoryResponse.t :=
  (data <- _request self "GET" "/api/chat/history" None
             (Some (<["limit" := to_py limit]>
                      (<["offset" := to_py offset]> ∅))) ;;
   lift (msgs <- subscript data "messages" ;;
         msgs <- iterate msgs ;;
         messages <- mapR ChatMessage_of msgs ;;
         total <- subscript data "total" ;;
         limit <- subscript data "limit" ;;
         offset <- subscript data "offset" ;;
         Ret (ChatHistoryResponse.mk messages total limit offset))%R)%M.

(** *** Beams *)

(** The [Beam(beam_id=b['beam_id'], ...)] expression of [query_beams],
    [get_beam], [create_beam] and [update_beam]. *)
Definition Beam_of (b : pyval) : result Beam.t :=
  (beam_id <- subscript b "beam_id" ;;
   kind <- subscript b "kind" ;;
   title <- subscript b "title" ;;
   tags <- subscript b "tags" ;;
   body <- subscript b "body" ;;
   status <- subscript b "status" ;;
   pinned <- subscript b "pinned" ;;
   updated_at_ms <- subscript b "updated_at_ms" ;;
   Ret (Beam.mk beam_id kind title tags body status pinned updated_at_ms))%R.

Definition query_beams_params (text : option string)
    (tags kinds : option (list string)) (include_dead : option bool)
    (limit : option Z) : dict :=
  <["text" := to_py text]>
    (<["tags" := to_py tags]>
       (<["kinds" := to_py kinds]>
          (<["include_dead" := to_py include_dead]>
             (<["limit" := to_py limit]> ∅)))).

Definition query_beams (self : MathisonClient) (text : option string)
    (tags kinds : option (list string)) (include_dead : option bool)
    (limit : option Z) : M BeamQueryResponse.t :=
  let params := query_beams_params text tags kinds include_dead limit in
  (data <- _request self "GET" "/api/beams" None (Some params) ;;
   lift (bs <- subscript data "beams" ;;
         bs <- iterate bs ;;
         beams <- mapR Beam_of bs ;;
         total <- subscript data "total" ;;
         Ret (BeamQueryResponse.mk beams total))%R)%M.

Definition get_beam (self : MathisonClient) (beam_id : string) : M Beam.t :=
  (data <- _request self "GET" ("/api/beams/" +:+ beam_id) None None ;;
   lift (Beam_of data))%M.

Definition create_beam_payload (kind title : string) (tags : list string)
    (body : string) (beam_id : option string) (pinned : option bool) : dict :=
  let payload : dict :=
    <["kind" := to_py kind]>
      (<["title" := to_py title]>
         (<["tags" := to_py tags]> (<["body" := to_py body]> ∅))) in
  let payload :=
    if truthy beam_id then <["beam_id" := to_py beam_id]> payload else payload in
  let payload :=
    if negb (is_None (to_py pinned))
    then <["pinned" := to_py pinned]> payload else payload in
  payload.

Definition create_beam (self : MathisonClient) (kind title : string)
    (tags : list string) (body : string) (beam_id : option string)
    (pinned : option bool) : M Beam.t :=
  let payload := create_beam_payload kind title tags body beam_id pinned in
  (data <- _request self "POST" "/api/beams" (Some payload) None ;;
   lift (Beam_of data))%M.

Definition update_beam_payload (title : option string)
    (tags : option (list string)) (body : option string) : dict :=
  let payload : dict := ∅ in
  let payload :=
    if truthy title then <["title" := to_py title]> payload else payload in
  let payload :=
    if truthy tags then <["tags" := to_py tags]> payload else payload in
  let payload :=
    if truthy body then <["body" := to_py body]> payload else payload in
  payload.

Definition update_beam (self : MathisonClient) (beam_id : string)
    (title : option string) (tags : option (list string))
    (body : option string) : M Beam.t :=
  let payload := update_beam_payload title tags body in
  (data <- _request self "PATCH" ("/api/beams/" +:+ beam_id) (Some payload) None ;;
   lift (Beam_of data))%M.

Definition pin_beam (self : MathisonClient) (beam_id : string) : M pyval :=
  _request self "POST" ("/api/beams/" +:+ beam_id +:+ "/pin") None None.

Definition unpin_beam (self : MathisonClient) (beam_id : string) : M pyval :=
  _request self "DELETE" ("/api/beams/" +:+ beam_id +:+ "/pin") None None.

Definition retire_beam (self : MathisonClient) (beam_id : string) : M pyval :=
  _request self "POST" ("/api/beams/" +:+ beam_id +:+ "/retire") None None.

Definition tombstone_beam_payload (reason_code : string)
    (approval_token : option string) : dict :=
  let payload : dict := {[ "reason_code" := to_py reason_code ]} in
  let payload :=
    if truthy approval_token
    then <["approval_token" := to_py approval_token]> payload else payload in
  payload.

Definition tombstone_beam (self : MathisonClient) (beam_id reason_code : string)
    (approval_token : option string) : M pyval :=
  let payload := tombstone_beam_payload reason_code approval_token in
  _request self "POST" ("/api/beams/" +:+ beam_id +:+ "/tombstone")
    (Some payload) None.

(** Every endpoint method with its arguments, and what each returns. *)
Inductive call : Type :=
| Health
| GetStatus
| GetIdentity
| SendMessage (content : string)
| GetChatHistory (limit offset : option Z)
| QueryBeams (text : option string) (tags kinds : option (list string))
    (include_dead : option bool) (limit : option Z)
| GetBeam (beam_id : string)
| CreateBeam (kind title : string) (tags : list string) (body : string)
    (beam_id : option string) (pinned : option bool)
| UpdateBeam (beam_id : string) (title : option string)
    (tags : option (list string)) (body : option string)
| PinBeam (beam_id : string)
| UnpinBeam (beam_id : string)
| RetireBeam (beam_id : string)
| TombstoneBeam (beam_id reason_code : string) (approval_token : option string).

Inductive value : Type :=
| VRaw (v : pyval)
| VSent (r : SendMessageResponse.t)
| VHistory (r : ChatHistoryResponse.t)
| VBeams (r : BeamQueryResponse.t)
| VBeam (b : Beam.t).

Definition fmap {A B} (f : A -> B) (m : M A) : M B :=
  (a <- m ;; ret (f a))%M.

Definition invoke (self : MathisonClient) (c : call) : M value :=
  match c with
  | Health => fmap VRaw (health self)
  | GetStatus => fmap VRaw (get_status self)
  | GetIdentity => fmap VRaw (get_identity self)
  | SendMessage content => fmap VSent (send_message self content)
  | GetChatHistory limit offset =>
      fmap VHistory (get_chat_history self limit offset)
  | QueryBeams text tags kinds include_dead limit =>
      fmap VBeams (query_beams self text tags kinds include_dead limit)
  | GetBeam beam_id => fmap VBeam (get_beam self beam_id)
  | CreateBeam kind title tags body beam_id pinned =>
      fmap VBeam (create_beam self kind title tags body beam_id pinned)
  | UpdateBeam beam_id title tags body =>
      fmap VBeam (update_beam self beam_id title tags body)
  | PinBeam beam_id => fmap VRaw (pin_beam self beam_id)
  | UnpinBeam beam_id => fmap VRaw (unpin_beam self beam_id)
  | RetireBeam beam_id => fmap VRaw (retire_beam self beam_id)
  | TombstoneBeam beam_id reason_code approval_token =>
      fmap VRaw (tombstone_beam self beam_id reason_code approval_token)
  end.

End ClientA.

(** ** The [httpx] library, as far as Client B uses it *)

Module httpx.

(** [httpx.Client] blocks the calling thread; [httpx.AsyncClient] is
    awaited.  Run to completion, an awaited call yields what the blocking
    call returns, so the two differ here in their tag only. *)
Inductive flavour : Type := Blocking | Suspending.

Record Client : Type := mkClient {
  kind : flavour;
  pool : nat;
  timeout : pyval;
}.

(** [httpx.Client(timeout=t)] and [httpx.AsyncClient(timeout=t)]. *)
Definition Client_new (k : flavour) (t : pyval) : M Client :=
  fun w =>
    (Ret (mkClient k (fresh w) t),
     mkWorld (wire w) (sent w) ({[fresh w]} ∪ live w) (S (fresh w))).

Definition send (c : Client) (method url : string)
    (headers : gmap string string) (params json : option dict) : M Response :=
  fun w =>
    let rq := mkRequest method url headers params json (timeout c) in
    let w' := mkWorld (wire w) (sent w ++ [rq]) (live w) (fresh w) in
    match wire w rq with
    | Responds r => (Ret r, w')
    | Fails e => (Raise e, w')
    end.

(** [client.get(url, headers=, params=)]. *)
Definition get (c : Client) (url : string) (headers : gmap string string)
    (params : option dict) : M Response :=
  send c "GET" url headers params None.

(** [client.post(url, headers=, json=)]. *)
Definition post (c : Client) (url : string) (headers : gmap string string)
    (json : option dict) : M Response :=
  send c "POST" url headers None json.

(** [client.close()] and [await client.aclose()]. *)
Definition close (c : Client) : M unit :=
  fun w => (Ret (), mkWorld (wire w) (sent w) (live w ∖ {[pool c]}) (fresh w)).

Definition error_type (status : Z) : string :=
  match (status / 100)%Z with
  | 1%Z => "Informational response"
  | 3%Z => "Redirect response"
  | 4%Z => "Client error"
  | 5%Z => "Server error"
  | _ => "Invalid status code"
  end.

(** [Response.raise_for_status()]: an [HTTPStatusError] unless the status
    is 2xx.  Of the message, the first line is kept. *)
Definition raise_for_status (r : Response) : result unit :=
  if bool_decide (200 <= status_code r <= 299)%Z then Ret ()
  else
    Raise (Exc httpx_HTTPStatusError
             (error_type (status_code r) +:+ " '" +:+ pretty (status_code r)
                +:+ " " +:+ reason r +:+ "' for url '" +:+ url r +:+ "'") None).

(** [Response.json()]: [json.loads] on the body. *)
Definition json (r : Response) : result pyval :=
  match json_body r with
  | Some v => Ret v
  | None =>
      Raise (Exc JSONDecodeError "Expecting value: line 1 column 1 (char 0)" None)
  end.

End httpx.

(** ** [typing] generic aliases and keyword unpacking *)

Module typing.

Record GenericAlias : Type := mkAlias {
  _name : string;
  origin : string;
  _inst : bool;
}.

(** [typing.Dict = _alias(dict, 2, inst=False, name='Dict')]. *)
Definition Dict : GenericAlias := mkAlias "Dict" "dict" false.

(** [alias[params]]: the copy keeps [_inst]. *)
Definition getitem (a : GenericAlias) (params : list string) : GenericAlias :=
  mkAlias (_name a) (origin a) (_inst a).

(** [alias( **kw)]: [_BaseGenericAlias.__call__]. *)
Definition call {A} (a : GenericAlias) (construct : dict -> result A)
    (kw : dict) : result A :=
  if _inst a then construct kw
  else
    Raise (Exc TypeError
             ("Type " +:+ _name a +:+ " cannot be instantiated; use "
                +:+ origin a +:+ "() instead") None).

End typing.

(** [f( **data)]: the object after [**] has to be a mapping.  [callee]
    is the name the message gives the called object. *)
Definition kwargs (callee : string) (data : pyval) : result dict :=
  match data with
  | PDict d => Ret d
  | _ =>
      Raise (Exc TypeError
               (callee +:+ "() argument after ** must be a mapping, not "
                  +:+ type_name data) None)
  end.

Fixpoint is_substring (k s : string) : bool :=
  String.prefix k s
  || match s with
     | EmptyString => false
     | String _ s' => is_substring k s'
     end.

(** [k in v] for a string [k]. *)
Definition contains (k : string) (v : pyval) : result bool :=
  match v with
  | PDict d => Ret (bool_decide (is_Some (d !! k)))
  | PList l =>
      Ret (existsb (fun x => match x with PStr s => String.eqb s k | _ => false end) l)
  | PStr s => Ret (is_substring k s)
  | _ =>
      Raise (Exc TypeError
               ("argument of type '" +:+ type_name v +:+ "' is not iterable") None)
  end.

(** ** The [with] statement *)

(** What a class offers to [with] (or, for an asynchronous class, to
    [async with]): its [__enter__] and [__exit__], when it defines them. *)
Class ContextManager (C : Type) : Type := {
  cm_class : string;
  cm_enter : option (C -> M C);
  cm_exit : option (C -> option exc -> M pyval);
}.
Global Arguments cm_class C {_}.
Global Arguments cm_enter C {_}.
Global Arguments cm_exit C {_}.

(** [with mgr as v: body v].  [Some a] when the body completed with [a],
    [None] when it raised and [__exit__] swallowed the exception. *)
Definition with_ {C A} `{ContextManager C} (mgr : C) (body : C -> M A)
    : M (option A) :=
  match cm_enter C, cm_exit C with
  | Some enter, Some exit =>
      (v <- enter mgr ;;
       fun w =>
         match body v w with
         | (Ret a, w') => (exit mgr None ;; ret (Some a))%M w'
         | (Raise e, w') =>
             (swallow <- exit mgr (Some e) ;;
              if truthy swallow then ret None else raise e)%M w'
         end)%M
  | _, _ =>
      raise (Exc TypeError
               ("'" +:+ cm_class C
                  +:+ "' object does not support the context manager protocol") None)
  end.

(** Client A's class defines neither [__enter__] nor [__exit__]. *)
Global Instance ClientA_context : ContextManager ClientA.MathisonClient :=
  {| cm_class := "MathisonClient"; cm_enter := None; cm_exit := None |}.

(** ** Client B: [version-one/sdks/python/mathison_sdk/client.py] *)

Inductive model_class : Type :=
| HealthResponse
| GenomeMetadata
| Node
| Edge
| SearchResponse
| JobResult
| InterpretResponse
| CreateNodeResponse
| CreateEdgeResponse.

Definition model_name (m : model_class) : string :=
  match m with
  | HealthResponse => "HealthResponse"
  | GenomeMetadata => "GenomeMetadata"
  | Node => "Node"
  | Edge => "Edge"
  | SearchResponse => "SearchResponse"
  | JobResult => "JobResult"
  | InterpretResponse => "InterpretResponse"
  | CreateNodeResponse => "CreateNodeResponse"
  | CreateEdgeResponse => "CreateEdgeResponse"
  end.

(** The models of [models.py] are pydantic classes; building one validates
    the keyword arguments inside pydantic.  The clients are embedded over
    any such validation. *)
Class Pydantic : Type := {
  Model : Type;
  validate : model_class -> dict -> result Model;
}.

Module ClientB.

(** One record for both classes: [MathisonClient] holds an
    [httpx.Client], [AsyncMathisonClient] an [httpx.AsyncClient], and
    every method of the second is the method of the first with [await]
    before the transport call. *)
Record MathisonClient : Type := mkClient {
  base_url : string;
  api_key : option string;
  timeout : float;
  _client : httpx.Client;
}.

Definition default_base_url : string := "http://localhost:3000".
Definition default_timeout : float := 30.0%float.

Definition init (k : httpx.flavour) (base_url : string)
    (api_key : option string) (timeout : float) : M MathisonClient :=
  (_client <- httpx.Client_new k (PFloat timeout) ;;
   ret (mkClient (rstrip "/" base_url) api_key timeout _client))%M.

(** [MathisonClient.__init__]. *)
Definition __init__ := init httpx.Blocking.

(** [AsyncMathisonClient.__init__]. *)
Definition Async__init__ := init httpx.Suspending.

Definition close (self : MathisonClient) : M unit :=
  httpx.close (_client self).

(** [__enter__] and [__aenter__]. *)
Definition __enter__ (self : MathisonClient) : M MathisonClient := ret self.

(** [__exit__] and [__aexit__]: close, and return [None]. *)
Definition __exit__ (self : MathisonClient) (exc_val : option exc) : M pyval :=
  (close self ;; ret PNone)%M.

Definition _headers (self : MathisonClient) : gmap string string :=
  let headers : gmap string string := {[ "Content-Type" := "application/json" ]} in
  let headers :=
    if truthy (api_key self)
    then <["Authorization" := "Bearer " +:+ fmt (api_key self)]> headers
    else headers in
  headers.

Definition _get (self : MathisonClient) (path : string) (params : option dict)
    : M pyval :=
  (response <- httpx.get (_client self) (base_url self +:+ path)
                 (_headers self) params ;;
   lift (httpx.raise_for_status response) ;;
   lift (httpx.json response))%M.

Definition _post (self : MathisonClient) (path : string) (json : option dict)
    : M pyval :=
  (response <- httpx.post (_client self) (base_url self +:+ path)
                 (_headers self) json ;;
   lift (httpx.raise_for_status response) ;;
   lift (httpx.json response))%M.

Section Endpoints.
Context {P : Pydantic}.

(** [cls( **data)] for a model class. *)
Definition build (cls : model_class) (data : pyval) : result Model :=
  (kw <- kwargs (model_name cls) data ;; validate cls kw)%R.

(** [Dict[str, Any]( **data)]. *)
Definition Dict_str_Any (data : pyval) : result pyval :=
  let alias := typing.getitem typing.Dict ["str"; "Any"] in
  (kw <- kwargs "Dict" data ;;
   typing.call alias (fun kw => Ret (PDict kw)) kw)%R.

(** What a method hands back: a model, or the decoded body as it is. *)
Inductive value : Type :=
| VModel (m : Model)
| VRaw (v : pyval).

Definition get_genome (self : MathisonClient) : M Model :=
  (data <- _get self "/genome" None ;;
   lift (build GenomeMetadata data))%M.

Definition get_health (self : MathisonClient) : M Model :=
  (data <- _get self "/health" None ;;
   lift (build HealthResponse data))%M.

Definition get_job_logs (self : MathisonClient) (job_id : option string)
    (limit : option Z) : M pyval :=
  (data <- _get self "/jobs/logs" None ;;
   lift (Dict_str_Any data))%M.

Definition resume_job (self : MathisonClient) : M pyval :=
  _post self "/jobs/resume" None.

Definition run_job (self : MathisonClient) (job_type : string)
    (inputs : option dict) (policy_id : option string) : M Model :=
  let payload : dict := {[ "jobType" := to_py job_type ]} in
  let payload :=
    if truthy inputs then <["inputs" := to_py inputs]> payload else payload in
  let payload :=
    if truthy policy_id then <["policyId" := to_py policy_id]> payload
    else payload in
  (data <- _post self "/jobs/run" (Some payload) ;;
   lift (build JobResult data))%M.

Definition get_job_status (self : MathisonClient) (job_id : option string)
    (limit : option Z) : M value :=
  let params : dict := ∅ in
  let params :=
    if truthy job_id then <["job_id" := to_py job_id]> params else params in
  let params :=
    if truthy limit then <["limit" := to_py limit]> params else params in
  (data <- _get self "/jobs/status"
             (if truthy params then Some params else None) ;;
   lift (has <- contains "job_id" data ;;
         if has : bool then (m <- build JobResult data ;; Ret (VModel m))
         else Ret (VRaw data))%R)%M.

Definition create_edge (self : MathisonClient)
    (idempotency_key from_node to_node type : string)
    (metadata : option dict) : M Model :=
  let payload : dict :=
    <["idempotency_key" := to_py idempotency_key]>
      (<["from" := to_py from_node]>
         (<["to" := to_py to_node]> (<["type" := to_py type]> ∅))) in
  let payload :=
    if truthy metadata then <["metadata" := to_py metadata]> payload
    else payload in
  (data <- _post self "/memory/edges" (Some payload) ;;
   lift (build CreateEdgeResponse data))%M.

Definition get_edge (self : MathisonClient) (id : string) : M Model :=
  (data <- _get self ("/memory/edges/" +:+ id) None ;;
   lift (build Edge data))%M.

Definition create_hyperedge (self : MathisonClient) : M pyval :=
  _post self "/memory/hyperedges" None.

Definition get_hyperedge (self : MathisonClient) (id : string) : M pyval :=
  (data <- _get self ("/memory/hyperedges/" +:+ id) None ;;
   lift (Dict_str_Any data))%M.

Definition create_node (self : MathisonClient)
    (idempotency_key type : string) (data metadata : option dict)
    (id : option string) : M Model :=
  let payload : dict :=
    <["idempotency_key" := to_py idempotency_key]>
      (<["type" := to_py type]> ∅) in
  let payload :=
    if truthy data then <["data" := to_py data]> payload else payload in
  let payload :=
    if truthy metadata then <["metadata" := to_py metadata]> payload
    else payload in
  let payload :=
    if truthy id then <["id" := to_py id]> payload else payload in
  (data <- _post self "/memory/nodes" (Some payload) ;;
   lift (build CreateNodeResponse data))%M.

Definition get_node (self : MathisonClient) (id : string) : M Model :=
  (data <- _get self ("/memory/nodes/" +:+ id) None ;;
   lift (build Node data))%M.

(** The path is a plain string literal, not an f-string. *)
Definition update_node (self : MathisonClient) (id : string) : M pyval :=
  _post self "/memory/nodes/{id}" None.

Definition get_node_edges (self : MathisonClient) (id : string) : M pyval :=
  (data <- _get self ("/memory/nodes/" +:+ id +:+ "/edges") None ;;
   lift (Dict_str_Any data))%M.

Definition get_node_hyperedges (self : MathisonClient) (id : string)
    : M pyval :=
  (data <- _get self ("/memory/nodes/" +:+ id +:+ "/hyperedges") None ;;
   lift (Dict_str_Any data))%M.

Definition search_nodes (self : MathisonClient) (query : string) (limit : Z)
    : M Model :=
  (data <- _get self "/memory/search"
             (Some (<["q" := to_py query]> (<["limit" := to_py limit]> ∅))) ;;
   lift (build SearchResponse data))%M.

Definition interpret (self : MathisonClient) (text : string)
    (limit : option Z) : M Model :=
  let payload : dict := {[ "text" := to_py text ]} in
  let payload :=
    if truthy limit then <["limit" := to_py limit]> payload else payload in
  (data <- _post self "/oi/interpret" (Some payload) ;;
   lift (build InterpretResponse data))%M.

Definition get_openapi (self : MathisonClient) : M pyval :=
  (data <- _get self "/openapi.json" None ;;
   lift (Dict_str_Any data))%M.

(** Every endpoint method with its arguments. *)
Inductive call : Type :=
| GetGenome
| GetHealth
| GetJobLogs (job_id : option string) (limit : option Z)
| ResumeJob
| RunJob (job_type : string) (inputs : option dict) (policy_id : option string)
| GetJobStatus (job_id : option string) (limit : option Z)
| CreateEdge (idempotency_key from_node to_node type : string)
    (metadata : option dict)
| GetEdge (id : string)
| CreateHyperedge
| GetHyperedge (id : string)
| CreateNode (idempotency_key type : string) (data metadata : option dict)
    (id : option string)
| GetNode (id : string)
| UpdateNode (id : string)
| GetNodeEdges (id : string)
| GetNodeHyperedges (id : string)
| SearchNodes (query : string) (limit : Z)
| Interpret (text : string) (limit : option Z)
| GetOpenapi.

Definition fmap {A B} (f : A -> B) (m : M A) : M B :=
  (a <- m ;; ret (f a))%M.

Definition invoke (self : MathisonClient) (c : call) : M value :=
  match c with
  | GetGenome => fmap VModel (get_genome self)
  | GetHealth => fmap VModel (get_health self)
  | GetJobLogs job_id limit => fmap VRaw (get_job_logs self job_id limit)
  | ResumeJob => fmap VRaw (resume_job self)
  | RunJob job_type inputs policy_id =>
      fmap VModel (run_job self job_type inputs policy_id)
  | GetJobStatus job_id limit => get_job_status self job_id limit
  | CreateEdge idempotency_key from_node to_node type metadata =>
      fmap VModel
        (create_edge self idempotency_key from_node to_node type metadata)
  | GetEdge id => fmap VModel (get_edge self id)
  | CreateHyperedge => fmap VRaw (create_hyperedge self)
  | GetHyperedge id => fmap VRaw (get_hyperedge self id)
  | CreateNode idempotency_key type data metadata id =>
      fmap VModel (create_node self idempotency_key type data metadata id)
  | GetNode id => fmap VModel (get_node self id)
  | UpdateNode id => fmap VRaw (update_node self id)
  | GetNodeEdges id => fmap VRaw (get_node_edges self id)
  | GetNodeHyperedges id => fmap VRaw (get_node_hyperedges self id)
  | SearchNodes query limit => fmap VModel (search_nodes self query limit)
  | Interpret text limit => fmap VModel (interpret self text limit)
  | GetOpenapi => fmap VRaw (get_openapi self)
  end.

End Endpoints.

End ClientB.

Global Instance ClientB_context : ContextManager ClientB.MathisonClient :=
  {| cm_class := "MathisonClient";
     cm_enter := Some ClientB.__enter__;
     cm_exit := Some ClientB.__exit__ |}.

(** ** What a failed exchange is, per library *)

(** The exception [requests] has for an exchange that went wrong: the
    transport's own [RequestException], or the [HTTPError] of the status
    check. *)
Definition requests_cause (o : outcome) : option exc :=
  match o with
  | Fails e => if is_RequestException e then Some e else None
  | Responds r =>
      match requests.raise_for_status r with
      | Raise e => Some e
      | Ret _ => None
      end
  end.

(** The exception [httpx] has for it: whatever the transport raised, or
    the [HTTPStatusError] of the status check. *)
Definition httpx_cause (o : outcome) : option exc :=
  match o with
  | Fails e => Some e
  | Responds r =>
      match httpx.raise_for_status r with
      | Raise e => Some e
      | Ret _ => None
      end
  end.

(** The exception Client A raises for a cause. *)
Definition request_failed (cause : exc) : exc :=
  Exc Exception ("API request failed: " +:+ exc_str cause) (Some cause).

(** The request Client A's [_request] hands to the session. *)
Definition requestA (self : ClientA.MathisonClient) (method path : string)
    (json params : option dict) : Request :=
  mkRequest method (ClientA.base_url self +:+ path)
    (requests.headers (ClientA.session self))
    (if truthy params then ClientA.drop_None <$> params else params)
    json (PInt (ClientA.timeout self)).

(** The request Client B's [_get] and [_post] hand to the httpx client. *)
Definition requestB (self : ClientB.MathisonClient) (method path : string)
    (params json : option dict) : Request :=
  mkRequest method (ClientB.base_url self +:+ path) (ClientB._headers self)
    params json (httpx.timeout (ClientB._client self)).

(** A mocked transport that answers every request alike, nothing sent yet
    and no pool open. *)
Definition mock (o : outcome) : World := mkWorld (fun _ => o) [] ∅ 0.

Definition not_found : outcome :=
  Responds (mkResponse 404 "Not Found" "http://localhost:3000/health" None).

Definition refused_httpx : outcome :=
  Fails (Exc httpx_ConnectError "Connection refused" None).

Definition ok (body : pyval) : outcome :=
  Responds (mkResponse 200 "OK" "http://localhost:3000/" (Some body)).

(** Pydantic left out: every model is its keyword dictionary. *)
Definition unvalidated : Pydantic :=
  {| Model := dict; validate := fun _ kw => Ret kw |}.


(** What [_request] of Client A makes of the transport's answer. *)
Definition answerA (o : outcome) : result pyval :=
  match o with
  | Fails e => if is_RequestException e then Raise (request_failed e) else Raise e
  | Responds r =>
      match requests.raise_for_status r with
      | Raise e => Raise (request_failed e)
      | Ret _ =>
          match requests.json r with
          | Ret v => Ret v
          | Raise e => Raise (request_failed e)
          end
      end
  end.

(** What [_get] and [_post] of Client B make of it. *)
Definition answerB (o : outcome) : result pyval :=
  match o with
  | Fails e => Raise e
  | Responds r =>
      match httpx.raise_for_status r with
      | Raise e => Raise e
      | Ret _ => httpx.json r
      end
  end.

(** The world after one more request went out. *)
Definition logged (rq : Request) (w : World) : World :=
  mkWorld (wire w) (sent w ++ [rq]) (live w) (fresh w).


(** Clients as their constructors build them on a fresh world, with the
    default arguments. *)
Definition clientA0 : ClientA.MathisonClient :=
  ClientA.mkClient "http://localhost:3000" None 30
    (requests.set_header (requests.mkSession requests.default_headers 0)
       "Content-Type" "application/json").

Definition clientB0 : ClientB.MathisonClient :=
  ClientB.mkClient "http://localhost:3000" None 30.0%float
    (httpx.mkClient httpx.Blocking 0 (PFloat 30.0%float)).

Definition asyncB0 : ClientB.MathisonClient :=
  ClientB.mkClient "http://localhost:3000" None 30.0%float
    (httpx.mkClient httpx.Suspending 0 (PFloat 30.0%float)).

(** A transport answers every request with a 2xx status and a JSON body. *)
Definition succeeds (w : World) : Prop :=
  forall rq, exists r data,
    wire w rq = Responds r
    /\ (200 <= status_code r <= 299)%Z
    /\ json_body r = Some data.


(** ** Beam JSON *)

Definition beam_keys : list string :=
  ["beam_id"; "kind"; "title"; "tags"; "body"; "status"; "pinned";
   "updated_at_ms"].

(** An element of the "beams" array that has every field of a beam. *)
Definition is_beam_json (e : pyval) : Prop :=
  exists d, e = PDict d /\ Forall (fun k => is_Some (d !! k)) beam_keys.

(** The record [b] holds the fields of the JSON object [e] as they are. *)
Definition beam_fields_of (e : pyval) (b : ClientA.Beam.t) : Prop :=
  exists d,
    e = PDict d
    /\ d !! "beam_id" = Some (ClientA.Beam.beam_id b)
    /\ d !! "kind" = Some (ClientA.Beam.kind b)
    /\ d !! "title" = Some (ClientA.Beam.title b)
    /\ d !! "tags" = Some (ClientA.Beam.tags b)
    /\ d !! "body" = Some (ClientA.Beam.body b)
    /\ d !! "status" = Some (ClientA.Beam.status b)
    /\ d !! "pinned" = Some (ClientA.Beam.pinned b)
    /\ d !! "updated_at_ms" = Some (ClientA.Beam.updated_at_ms b).

Definition beam_json (beam_id title : string) (pinned : bool) : pyval :=
  PDict (<["beam_id" := PStr beam_id]>
           (<["kind" := PStr "note"]>
              (<["title" := PStr title]>
                 (<["tags" := PList [PStr "a"; PStr "b"]]>
                    (<["body" := PStr ""]>
                       (<["status" := PStr "active"]>
                          (<["pinned" := PBool pinned]>
                             (<["updated_at_ms" := PInt 1700000000000]> ∅)))))))).

Definition two_beams : list pyval :=
  [beam_json "b-2" "second" true; beam_json "b-1" "first" false].

Definition beams_response (elems : list pyval) (total : pyval) : Response :=
  mkResponse 200 "OK" "http://localhost:3000/api/beams"
    (Some (PDict (<["beams" := PList elems]> (<["total" := total]> ∅)))).


(** [n] slashes. *)
Fixpoint slashes (n : nat) : string :=
  match n with
  | O => EmptyString
  | S n' => String "/" (slashes n')
  end.

(** The transport answers every request with [r]. *)
Definition answers (w : World) (r : Response) : Prop :=
  forall rq, wire w rq = Responds r.

Definition success (r : Response) : Prop := (200 <= status_code r <= 299)%Z.

(** The message object and the answer of a [send_message] exchange. *)
Definition message_json : dict :=
  <["id" := PStr "m-1"]>
    (<["role" := PStr "assistant"]>
       (<["content" := PStr "hello"]> (<["timestamp" := PInt 1700000000000]> ∅))).

Definition send_response : Response :=
  mkResponse 200 "OK" "http://localhost:3000/api/chat/send"
    (Some (PDict (<["message" := PDict message_json]> ∅))).


(** A message object that has the four fields [ChatMessage_of] subscripts;
    "metadata" may be missing. *)
Definition is_message_json (e : pyval) : Prop :=
  exists d,
    e = PDict d
    /\ Forall (fun k => is_Some (d !! k)) ["id"; "role"; "content"; "timestamp"].

(** The record [m] holds the fields of the message object [e] as they are,
    [None] standing for a missing "metadata". *)
Definition message_fields_of (e : pyval) (m : ClientA.ChatMessage.t) : Prop :=
  exists d,
    e = PDict d
    /\ d !! "id" = Some (ClientA.ChatMessage.id m)
    /\ d !! "role" = Some (ClientA.ChatMessage.role m)
    /\ d !! "content" = Some (ClientA.ChatMessage.content m)
    /\ d !! "timestamp" = Some (ClientA.ChatMessage.timestamp m)
    /\ default PNone (d !! "metadata") = ClientA.ChatMessage.metadata m.

(** * Properties *)

(** ** The monad *)

Lemma bind_eq {A B} (m : M A) (k : A -> M B) (w w' : World) (r : result A) :
  m w = (r, w') ->
  bind m k w = match r with Ret a => k a w' | Raise e => (Raise e, w') end.
Proof. unfold bind. intros ->. reflexivity. Qed.

(** What follows a transport call in an endpoint method touches neither
    the log nor the pools. *)
Lemma after_then_lift {A B} (m : M A) (k : A -> result B) (w : World) :
  (bind m (fun a => lift (k a)) w).2 = (m w).2.
Proof. unfold bind, lift. destruct (m w) as [[a|e] w']; reflexivity. Qed.

Lemma after_then_ret {A B} (m : M A) (f : A -> B) (w : World) :
  (bind m (fun a => ret (f a)) w).2 = (m w).2.
Proof. unfold bind, ret. destruct (m w) as [[a|e] w']; reflexivity. Qed.

Lemma raise_then {A B} (m : M A) (k : A -> M B) (w : World) (e : exc) :
  (m w).1 = Raise e -> (bind m k w).1 = Raise e.
Proof. unfold bind. destruct (m w) as [[a|e'] w']; simpl; congruence. Qed.

(** ** [rstrip] *)

Lemma rstrip_unchanged (s : string) :
  ends_with "/" s = false -> rstrip "/" s = s.
Proof.
  induction s as [|a s IH]; [reflexivity|].
  destruct s as [|b s'].
  - simpl. intros ->. reflexivity.
  - intros E. change (ends_with "/" (String b s') = false) in E.
    specialize (IH E).
    change (rstrip "/" (String a (String b s')))
      with (match rstrip "/" (String b s') with
            | EmptyString => if char_in a "/" then EmptyString else String a EmptyString
            | r => String a r
            end).
    rewrite IH. reflexivity.
Qed.

Lemma rstrip_snoc_slash (s : string) :
  rstrip "/" (s +:+ "/") = rstrip "/" s.
Proof.
  induction s as [|a s IH]; [reflexivity|].
  simpl. simpl in IH. rewrite IH. reflexivity.
Qed.

(** C4: an input with no trailing slash is stored unchanged, and an input
    with one trailing slash is stored without it, by the constructor of
    Client A and by both constructors of Client B. *)
Theorem base_url_stripped_once (url : string) (key : option string)
    (tA : Z) (tB : float) (k : httpx.flavour) (w : World) :
  ends_with "/" url = false ->
  (exists c, run (ClientA.__init__ url key tA) w = Ret c
             /\ ClientA.base_url c = url)
  /\ (exists c, run (ClientA.__init__ (url +:+ "/") key tA) w = Ret c
                /\ ClientA.base_url c = url)
  /\ (exists c, run (ClientB.init k url key tB) w = Ret c
                /\ ClientB.base_url c = url)
  /\ (exists c, run (ClientB.init k (url +:+ "/") key tB) w = Ret c
                /\ ClientB.base_url c = url).
Proof.
  intros E.
  repeat split; eexists; (split; [reflexivity|]); simpl;
    rewrite ?rstrip_snoc_slash; apply rstrip_unchanged, E.
Qed.

Lemma base_url_stripped_once_witness :
  (exists c, run (ClientA.__init__ "http://localhost:3000" None 30) 
               (mkWorld (fun _ => Fails (Exc httpx_ConnectError "" None)) [] ∅ 0) = Ret c
             /\ ClientA.base_url c = "http://localhost:3000")
  /\ (exists c, run (ClientA.__init__ "http://localhost:3000/" None 30)
               (mkWorld (fun _ => Fails (Exc httpx_ConnectError "" None)) [] ∅ 0) = Ret c
             /\ ClientA.base_url c = "http://localhost:3000")
  /\ (exists c, run (ClientB.init httpx.Suspending "http://localhost:3000" None 30%float)
               (mkWorld (fun _ => Fails (Exc httpx_ConnectError "" None)) [] ∅ 0) = Ret c
             /\ ClientB.base_url c = "http://localhost:3000")
  /\ (exists c, run (ClientB.init httpx.Suspending "http://localhost:3000/" None 30%float)
               (mkWorld (fun _ => Fails (Exc httpx_ConnectError "" None)) [] ∅ 0) = Ret c
             /\ ClientB.base_url c = "http://localhost:3000").
Proof.
  apply (base_url_stripped_once "http://localhost:3000" None 30 30%float
           httpx.Suspending). reflexivity.
Defined.

(** ** One request per call *)

Lemma ClientA_request_eq (self : ClientA.MathisonClient) (method path : string)
    (json params : option dict) (w : World) :
  ClientA._request self method path json params w =
    (answerA (wire w (requestA self method path json params)),
     logged (requestA self method path json params) w).
Proof.
  unfold ClientA._request, try_except, bind, requests.request, requestA,
    lift, answerA, logged.
  simpl.
  destruct (wire w _) as [r|e]; simpl.
  - unfold requests.raise_for_status.
    repeat case_bool_decide; simpl; try reflexivity.
    unfold requests.json. destruct (json_body r); reflexivity.
  - destruct (is_RequestException e); reflexivity.
Qed.

Lemma ClientB_get_eq (self : ClientB.MathisonClient) (path : string)
    (params : option dict) (w : World) :
  ClientB._get self path params w =
    (answerB (wire w (requestB self "GET" path params None)),
     logged (requestB self "GET" path params None) w).
Proof.
  unfold ClientB._get, bind, httpx.get, httpx.send, requestB, lift, answerB, logged.
  simpl.
  destruct (wire w _) as [r|e]; simpl; [|reflexivity].
  destruct (httpx.raise_for_status r); simpl; [|reflexivity].
  destruct (httpx.json r); reflexivity.
Qed.

Lemma ClientB_post_eq (self : ClientB.MathisonClient) (path : string)
    (json : option dict) (w : World) :
  ClientB._post self path json w =
    (answerB (wire w (requestB self "POST" path None json)),
     logged (requestB self "POST" path None json) w).
Proof.
  unfold ClientB._post, bind, httpx.post, httpx.send, requestB, lift, answerB, logged.
  simpl.
  destruct (wire w _) as [r|e]; simpl; [|reflexivity].
  destruct (httpx.raise_for_status r); simpl; [|reflexivity].
  destruct (httpx.json r); reflexivity.
Qed.

Lemma requests_cause_answer (o : outcome) (e : exc) :
  requests_cause o = Some e -> answerA o = Raise (request_failed e).
Proof.
  unfold requests_cause, answerA. destruct o as [r|e'].
  - destruct (requests.raise_for_status r); congruence.
  - destruct (is_RequestException e'); congruence.
Qed.

Lemma httpx_cause_answer (o : outcome) (e : exc) :
  httpx_cause o = Some e -> answerB o = Raise e.
Proof.
  unfold httpx_cause, answerB. destruct o as [r|e'].
  - destruct (httpx.raise_for_status r); congruence.
  - congruence.
Qed.

Ltac one_request :=
  unfold ClientA.fmap, ClientB.fmap;
  repeat first [ rewrite after_then_ret | rewrite after_then_lift ].

(** Every endpoint method of Client A hands exactly one request to the
    session, and a failed exchange ends the call. *)
Lemma ClientA_invoke_request (self : ClientA.MathisonClient) (c : ClientA.call) :
  exists method path json params,
    forall w : World,
      let rq := requestA self method path json params in
      after (ClientA.invoke self c) w = logged rq w
      /\ forall e, answerA (wire w rq) = Raise e ->
                   run (ClientA.invoke self c) w = Raise e.
Proof.
  destruct c; do 4 eexists; intros w rq; subst rq; unfold after, run;
    (split;
     [ cbn [ClientA.invoke];
       unfold ClientA.health, ClientA.get_status, ClientA.get_identity,
         ClientA.send_message, ClientA.get_chat_history, ClientA.query_beams,
         ClientA.get_beam, ClientA.create_beam, ClientA.update_beam,
         ClientA.pin_beam, ClientA.unpin_beam, ClientA.retire_beam,
         ClientA.tombstone_beam;
       one_request; rewrite ClientA_request_eq; reflexivity
     | intros e He; cbn [ClientA.invoke];
       unfold ClientA.health, ClientA.get_status, ClientA.get_identity,
         ClientA.send_message, ClientA.get_chat_history, ClientA.query_beams,
         ClientA.get_beam, ClientA.create_beam, ClientA.update_beam,
         ClientA.pin_beam, ClientA.unpin_beam, ClientA.retire_beam,
         ClientA.tombstone_beam, ClientA.fmap;
       repeat apply raise_then;
       rewrite ClientA_request_eq; exact He ]).
Qed.

Ltac unfold_ClientB :=
  cbn [ClientB.invoke];
  unfold ClientB.get_genome, ClientB.get_health, ClientB.get_job_logs,
    ClientB.resume_job, ClientB.run_job, ClientB.get_job_status,
    ClientB.create_edge, ClientB.get_edge, ClientB.create_hyperedge,
    ClientB.get_hyperedge, ClientB.create_node, ClientB.get_node,
    ClientB.update_node, ClientB.get_node_edges, ClientB.get_node_hyperedges,
    ClientB.search_nodes, ClientB.interpret, ClientB.get_openapi.

(** Every endpoint method of Client B hands exactly one request to the
    httpx client, and a failed exchange ends the call. *)
Lemma ClientB_invoke_request {P : Pydantic} (self : ClientB.MathisonClient)
    (c : ClientB.call) :
  exists method path params json,
    forall w : World,
      let rq := requestB self method path params json in
      after (ClientB.invoke self c) w = logged rq w
      /\ forall e, answerB (wire w rq) = Raise e ->
                   run (ClientB.invoke self c) w = Raise e.
Proof.
  destruct c; do 4 eexists; intros w rq; subst rq; unfold after, run;
    (split;
     [ unfold_ClientB; one_request;
       first [ rewrite ClientB_get_eq | rewrite ClientB_post_eq ]; reflexivity
     | intros e He; unfold_ClientB; unfold ClientB.fmap;
       first
         [ do 2 apply raise_then;
           first [ rewrite ClientB_get_eq | rewrite ClientB_post_eq ]; exact He
         | apply raise_then;
           first [ rewrite ClientB_get_eq | rewrite ClientB_post_eq ]; exact He ] ]).
Qed.

(** ** C1: what a failed exchange surfaces as *)

(** C1, as the code has it.  In Client A every endpoint method turns a
    failed exchange (an exception of the transport, or a 4xx/5xx status)
    into the one generic exception whose message is "API request failed: "
    and the cause's text, the cause being its context.  In Client B no
    method wraps anything: a failed exchange (any exception of the
    transport, or a status outside 2xx) surfaces as the transport
    library's own exception, unchanged. *)
Theorem request_failure_surfaces {P : Pydantic}
    (a : ClientA.MathisonClient) (ca : ClientA.call) (wa : World)
    (b : ClientB.MathisonClient) (cb : ClientB.call) (wb : World) :
  (forall rq, is_Some (requests_cause (wire wa rq))) ->
  (forall rq, is_Some (httpx_cause (wire wb rq))) ->
  (exists rq cause,
      sent (after (ClientA.invoke a ca) wa) = sent wa ++ [rq]
      /\ requests_cause (wire wa rq) = Some cause
      /\ run (ClientA.invoke a ca) wa = Raise (request_failed cause)
      /\ exc_cls (request_failed cause) = Exception
      /\ exc_context (request_failed cause) = Some cause)
  /\ (exists rq cause,
         sent (after (ClientB.invoke b cb) wb) = sent wb ++ [rq]
         /\ httpx_cause (wire wb rq) = Some cause
         /\ run (ClientB.invoke b cb) wb = Raise cause).
Proof.
  intros Ha Hb. split.
  - destruct (ClientA_invoke_request a ca) as (m & p & j & q & Hrq).
    destruct (Hrq wa) as [Hafter Hrun].
    destruct (Ha (requestA a m p j q)) as [cause Hc].
    exists (requestA a m p j q), cause.
    rewrite Hafter. repeat split; try assumption.
    apply Hrun, requests_cause_answer, Hc.
  - destruct (ClientB_invoke_request b cb) as (m & p & q & j & Hrq).
    destruct (Hrq wb) as [Hafter Hrun].
    destruct (Hb (requestB b m p q j)) as [cause Hc].
    exists (requestB b m p q j), cause.
    rewrite Hafter. repeat split; try assumption.
    apply Hrun, httpx_cause_answer, Hc.
Qed.

Lemma request_failure_surfaces_witness :
  (exists rq cause,
      sent (after (ClientA.invoke clientA0 ClientA.Health) (mock not_found))
        = sent (mock not_found) ++ [rq]
      /\ requests_cause (wire (mock not_found) rq) = Some cause
      /\ run (ClientA.invoke clientA0 ClientA.Health) (mock not_found)
           = Raise (request_failed cause)
      /\ exc_cls (request_failed cause) = Exception
      /\ exc_context (request_failed cause) = Some cause)
  /\ (exists rq cause,
         sent (after (ClientB.invoke (P := unvalidated) asyncB0 ClientB.GetHealth)
                 (mock refused_httpx))
           = sent (mock refused_httpx) ++ [rq]
         /\ httpx_cause (wire (mock refused_httpx) rq) = Some cause
         /\ run (ClientB.invoke (P := unvalidated) asyncB0 ClientB.GetHealth)
              (mock refused_httpx) = Raise cause).
Proof.
  apply (request_failure_surfaces (P := unvalidated)
           clientA0 ClientA.Health (mock not_found)
           asyncB0 ClientB.GetHealth (mock refused_httpx)).
  - intros rq. eexists. reflexivity.
  - intros rq. eexists. reflexivity.
Defined.

(** C1 as stated fails on Client B: no one error kind covers its
    failures.  A 404 surfaces as [HTTPStatusError], a refused connection
    as [ConnectError]. *)
Lemma request_failure_not_one_kind :
  ~ (exists kind : exc_class,
        forall o : outcome,
          is_Some (httpx_cause o) ->
          exists e,
            run (ClientB.get_health (P := unvalidated) clientB0) (mock o) = Raise e
            /\ exc_cls e = kind).
Proof.
  intros [kind Hk].
  destruct (Hk not_found) as (e1 & H1 & K1); [eexists; reflexivity|].
  destruct (Hk refused_httpx) as (e2 & H2 & K2); [eexists; reflexivity|].
  vm_compute in H1, H2.
  injection H1 as <-. injection H2 as <-.
  simpl in K1, K2. congruence.
Qed.

(** ** C2: the methods that return [Dict[str, Any]( **data)] *)

Lemma Dict_str_Any_raises (data : pyval) :
  exists msg, ClientB.Dict_str_Any data = Raise (Exc TypeError msg None).
Proof.
  unfold ClientB.Dict_str_Any. destruct data; simpl; eexists; reflexivity.
Qed.

Lemma succeeds_answerB (w : World) (rq : Request) :
  succeeds w -> exists data, answerB (wire w rq) = Ret data.
Proof.
  intros Hw. destruct (Hw rq) as (r & data & -> & Hs & Hj).
  exists data. unfold answerB, httpx.raise_for_status, httpx.json.
  rewrite bool_decide_eq_true_2 by exact Hs. rewrite Hj. reflexivity.
Qed.

Lemma get_then_Dict_raises (self : ClientB.MathisonClient) (path : string)
    (w : World) :
  succeeds w ->
  exists msg,
    run (bind (ClientB._get self path None)
           (fun data => lift (ClientB.Dict_str_Any data))) w
      = Raise (Exc TypeError msg None).
Proof.
  intros Hw. unfold run.
  destruct (succeeds_answerB w (requestB self "GET" path None None) Hw)
    as [data Hd].
  rewrite (bind_eq _ _ _ _ _ (ClientB_get_eq self path None w)), Hd.
  destruct (Dict_str_Any_raises data) as [msg Hm].
  exists msg. unfold lift. rewrite Hm. reflexivity.
Qed.

(** C2: in Client B, whenever the transport answers with a success status
    and a JSON body, [get_job_logs], [get_hyperedge], [get_node_edges],
    [get_node_hyperedges] and [get_openapi] raise a [TypeError]: the alias
    [Dict[str, Any]] cannot be instantiated. *)
Theorem dict_alias_methods_raise (self : ClientB.MathisonClient)
    (job_id : option string) (limit : option Z) (id : string) (w : World) :
  succeeds w ->
  forall m : M pyval,
    In m [ ClientB.get_job_logs self job_id limit;
           ClientB.get_hyperedge self id;
           ClientB.get_node_edges self id;
           ClientB.get_node_hyperedges self id;
           ClientB.get_openapi self ] ->
    (exists msg, run m w = Raise (Exc TypeError msg None))
    /\ forall v, run m w <> Ret v.
Proof.
  intros Hw m Hm.
  assert (exists msg, run m w = Raise (Exc TypeError msg None)) as [msg E].
  { simpl in Hm.
    destruct Hm as [<-|[<-|[<-|[<-|[<-|[]]]]]];
      apply get_then_Dict_raises, Hw. }
  split; [exists msg; exact E|]. intros v. rewrite E. discriminate.
Qed.

Lemma dict_alias_methods_raise_witness :
  (exists msg,
      run (ClientB.get_job_logs asyncB0 (Some "job-1") (Some 5%Z))
        (mock (ok (PDict ∅))) = Raise (Exc TypeError msg None))
  /\ forall v,
       run (ClientB.get_job_logs asyncB0 (Some "job-1") (Some 5%Z))
         (mock (ok (PDict ∅))) <> Ret v.
Proof.
  apply (dict_alias_methods_raise asyncB0
           (Some "job-1") (Some 5%Z) "n1" (mock (ok (PDict ∅)))).
  - intros rq. eexists _, _. split; [reflexivity|]. split; [simpl; lia|reflexivity].
  - left. reflexivity.
Defined.

(** ** C3 and C10: arguments that never reach the request *)

(** C3: in Client B, [update_node] posts to the literal path
    "/memory/nodes/{id}" whatever the id: two ids give the same call, and
    the one request it sends has that path after the base URL. *)
Theorem update_node_ignores_id (self : ClientB.MathisonClient)
    (id1 id2 : string) (w : World) :
  ClientB.update_node self id1 w = ClientB.update_node self id2 w
  /\ exists rq,
       sent (after (ClientB.update_node self id1) w) = sent w ++ [rq]
       /\ rq_method rq = "POST"
       /\ rq_url rq = ClientB.base_url self +:+ "/memory/nodes/{id}"
       /\ rq_params rq = None
       /\ rq_json rq = None.
Proof.
  split; [reflexivity|].
  unfold after, ClientB.update_node. rewrite ClientB_post_eq.
  eexists. split; [reflexivity|]. repeat split.
Qed.

(** C10: in Client B, [get_job_logs] sends GET "/jobs/logs" with no query
    parameters whatever its [job_id] and [limit]: two argument pairs give
    the same call. *)
Theorem get_job_logs_ignores_arguments (self : ClientB.MathisonClient)
    (job_id1 job_id2 : option string) (limit1 limit2 : option Z) (w : World) :
  ClientB.get_job_logs self job_id1 limit1 w
    = ClientB.get_job_logs self job_id2 limit2 w
  /\ exists rq,
       sent (after (ClientB.get_job_logs self job_id1 limit1) w) = sent w ++ [rq]
       /\ rq_method rq = "GET"
       /\ rq_url rq = ClientB.base_url self +:+ "/jobs/logs"
       /\ rq_params rq = None
       /\ rq_json rq = None.
Proof.
  split; [reflexivity|].
  unfold after, ClientB.get_job_logs. rewrite after_then_lift, ClientB_get_eq.
  eexists. split; [reflexivity|]. repeat split.
Qed.

(** ** C5: query parameters left as [None] *)

Lemma drop_None_lookup (d : dict) (k : string) :
  ClientA.drop_None d !! k =
    match d !! k with
    | Some PNone => None
    | o => o
    end.
Proof.
  unfold ClientA.drop_None. apply option_eq. intros v.
  rewrite map_lookup_filter_Some. simpl.
  destruct (d !! k) as [[]|]; simpl;
    (split; [intros [E1 E2]; simplify_eq; done | intros E; simplify_eq; done]).
Qed.

Lemma drop_None_no_None (d : dict) (k : string) :
  ClientA.drop_None d !! k <> Some PNone.
Proof.
  rewrite drop_None_lookup. destruct (d !! k) as [[]|]; discriminate.
Qed.

Lemma truthy_insert (d : dict) (k : string) (v : pyval) :
  truthy (Some (<[k := v]> d)) = true.
Proof.
  unfold truthy, truthy_option, truthy, truthy_gmap.
  apply bool_decide_eq_true_2, insert_non_empty.
Qed.

Lemma requestA_params_insert (self : ClientA.MathisonClient)
    (method path : string) (json : option dict) (d : dict) (k : string)
    (v : pyval) :
  rq_params (requestA self method path json (Some (<[k := v]> d)))
    = Some (ClientA.drop_None (<[k := v]> d)).
Proof. unfold requestA. simpl. rewrite truthy_insert. reflexivity. Qed.

(** C5: in Client A, the query parameters [query_beams] and
    [get_chat_history] send hold a key exactly when its argument is not
    [None], with the argument as the value; no key is sent with [None]. *)
Theorem omitted_query_arguments_absent (self : ClientA.MathisonClient)
    (text : option string) (tags kinds : option (list string))
    (include_dead : option bool) (limit : option Z)
    (hlimit hoffset : option Z) (w : World) :
  (exists rq ps,
      sent (after (ClientA.query_beams self text tags kinds include_dead limit) w)
        = sent w ++ [rq]
      /\ rq_params rq = Some ps
      /\ ps !! "text" = PStr <$> text
      /\ ps !! "tags" = (fun l => PList (map PStr l)) <$> tags
      /\ ps !! "kinds" = (fun l => PList (map PStr l)) <$> kinds
      /\ ps !! "include_dead" = PBool <$> include_dead
      /\ ps !! "limit" = PInt <$> limit
      /\ forall k, ps !! k <> Some PNone)
  /\ (exists rq ps,
         sent (after (ClientA.get_chat_history self hlimit hoffset) w)
           = sent w ++ [rq]
         /\ rq_params rq = Some ps
         /\ ps !! "limit" = PInt <$> hlimit
         /\ ps !! "offset" = PInt <$> hoffset
         /\ forall k, ps !! k <> Some PNone).
Proof.
  split.
  - unfold after, ClientA.query_beams. rewrite after_then_lift, ClientA_request_eq.
    eexists _, _. split; [reflexivity|].
    split; [apply requestA_params_insert|].
    repeat split; try apply drop_None_no_None;
      rewrite drop_None_lookup; unfold ClientA.query_beams_params;
      rewrite ?lookup_insert_ne by done; rewrite lookup_insert_eq.
    + destruct text; reflexivity.
    + destruct tags; reflexivity.
    + destruct kinds; reflexivity.
    + destruct include_dead; reflexivity.
    + destruct limit; reflexivity.
  - unfold after, ClientA.get_chat_history.
    rewrite after_then_lift, ClientA_request_eq.
    eexists _, _. split; [reflexivity|].
    split; [apply requestA_params_insert|].
    repeat split; try apply drop_None_no_None;
      rewrite drop_None_lookup;
      rewrite ?lookup_insert_ne by done; rewrite lookup_insert_eq.
    + destruct hlimit; reflexivity.
    + destruct hoffset; reflexivity.
Qed.

(** ** C6: optional arguments of the payload *)

Lemma lookup_if_insert (c : bool) (d : dict) (k k' : string) (v : pyval) :
  (if c then <[k := v]> d else d) !! k'
    = if c && bool_decide (k = k') then Some v else d !! k'.
Proof.
  destruct c; simpl; [|reflexivity].
  case_bool_decide; subst; [apply lookup_insert_eq|by apply lookup_insert_ne].
Qed.

Lemma create_beam_payload_no_None (kind title : string) (tags : list string)
    (body : string) (beam_id : option string) (pinned : option bool) (k : string) :
  ClientA.create_beam_payload kind title tags body beam_id pinned !! k
    <> Some PNone.
Proof.
  unfold ClientA.create_beam_payload. rewrite !lookup_if_insert.
  destruct pinned as [p|], beam_id as [[|c s]|]; simpl;
    repeat (case_bool_decide; simpl); subst; try discriminate;
    repeat (rewrite lookup_insert; case_decide; [discriminate|]);
    rewrite lookup_empty; discriminate.
Qed.

Lemma update_beam_payload_no_None (title : option string)
    (tags : option (list string)) (body : option string) (k : string) :
  ClientA.update_beam_payload title tags body !! k <> Some PNone.
Proof.
  unfold ClientA.update_beam_payload. rewrite !lookup_if_insert.
  destruct title as [[|c s]|], tags as [[|t l]|], body as [[|c' s']|]; simpl;
    repeat (case_bool_decide; simpl); subst; try discriminate;
    rewrite lookup_empty; discriminate.
Qed.

Lemma tombstone_beam_payload_no_None (reason_code : string)
    (approval_token : option string) (k : string) :
  ClientA.tombstone_beam_payload reason_code approval_token !! k <> Some PNone.
Proof.
  unfold ClientA.tombstone_beam_payload. rewrite !lookup_if_insert.
  destruct approval_token as [[|c s]|]; simpl;
    repeat (case_bool_decide; simpl); subst; try discriminate;
    (destruct (decide (k = "reason_code")) as [->|];
     [rewrite lookup_singleton_eq|rewrite lookup_singleton_ne by done];
     discriminate).
Qed.

(** C6, as the code has it.  In Client A the payloads of [create_beam],
    [update_beam] and [tombstone_beam] never hold [None]; the optional
    string and list arguments ([beam_id], [title], [tags], [body],
    [approval_token]) are sent exactly when they are truthy, so an empty
    string or list gives the call that omitting the argument gives; and
    [pinned] of [create_beam] is sent whenever it is not [None], [False]
    included. *)
Theorem falsy_optionals_omitted (self : ClientA.MathisonClient)
    (kind title : string) (tags : list string) (body : string)
    (beam_id : option string) (pinned : option bool)
    (id : string) (utitle : option string) (utags : option (list string))
    (ubody : option string) (reason_code : string)
    (approval_token : option string) (w : World) :
  (exists rq payload,
      sent (after (ClientA.create_beam self kind title tags body beam_id pinned) w)
        = sent w ++ [rq]
      /\ rq_json rq = Some payload
      /\ payload !! "beam_id" = (if truthy beam_id then PStr <$> beam_id else None)
      /\ payload !! "pinned" = PBool <$> pinned
      /\ forall k, payload !! k <> Some PNone)
  /\ ClientA.create_beam self kind title tags body (Some "") pinned w
       = ClientA.create_beam self kind title tags body None pinned w
  /\ (exists rq payload,
         sent (after (ClientA.update_beam self id utitle utags ubody) w)
           = sent w ++ [rq]
         /\ rq_json rq = Some payload
         /\ payload !! "title" = (if truthy utitle then PStr <$> utitle else None)
         /\ payload !! "tags"
              = (if truthy utags then (fun l => PList (map PStr l)) <$> utags
                 else None)
         /\ payload !! "body" = (if truthy ubody then PStr <$> ubody else None)
         /\ forall k, payload !! k <> Some PNone)
  /\ ClientA.update_beam self id (Some "") utags ubody w
       = ClientA.update_beam self id None utags ubody w
  /\ ClientA.update_beam self id utitle (Some []) ubody w
       = ClientA.update_beam self id utitle None ubody w
  /\ ClientA.update_beam self id utitle utags (Some "") w
       = ClientA.update_beam self id utitle utags None w
  /\ (exists rq payload,
         sent (after (ClientA.tombstone_beam self id reason_code approval_token) w)
           = sent w ++ [rq]
         /\ rq_json rq = Some payload
         /\ payload !! "approval_token"
              = (if truthy approval_token then PStr <$> approval_token else None)
         /\ forall k, payload !! k <> Some PNone)
  /\ ClientA.tombstone_beam self id reason_code (Some "") w
       = ClientA.tombstone_beam self id reason_code None w.
Proof.
  repeat apply conj; try reflexivity.
  - unfold after, ClientA.create_beam. rewrite after_then_lift, ClientA_request_eq.
    eexists _, _. split; [reflexivity|]. split; [reflexivity|].
    repeat split; try apply create_beam_payload_no_None;
      unfold ClientA.create_beam_payload; rewrite !lookup_if_insert.
    + destruct pinned, beam_id as [[|c s]|]; reflexivity.
    + destruct pinned, beam_id as [[|c s]|]; reflexivity.
  - unfold after, ClientA.update_beam. rewrite after_then_lift, ClientA_request_eq.
    eexists _, _. split; [reflexivity|]. split; [reflexivity|].
    repeat split; try apply update_beam_payload_no_None;
      unfold ClientA.update_beam_payload; rewrite !lookup_if_insert;
      destruct utitle as [[|c s]|], utags as [[|t l]|], ubody as [[|c' s']|];
      reflexivity.
  - unfold after, ClientA.tombstone_beam. rewrite ClientA_request_eq.
    eexists _, _. split; [reflexivity|]. split; [reflexivity|].
    repeat split; try apply tombstone_beam_payload_no_None.
    unfold ClientA.tombstone_beam_payload; rewrite !lookup_if_insert.
    destruct approval_token as [[|c s]|]; reflexivity.
Qed.

(** C6 as stated fails on [pinned]: [create_beam] with [pinned=False]
    sends "pinned": false, and so not the payload it sends when [pinned]
    is omitted. *)
Lemma pinned_False_is_sent :
  exists rq1 rq2 payload,
    sent (after (ClientA.create_beam clientA0 "note" "t" [] "b" None (Some false))
            (mock (ok PNone))) = [rq1]
    /\ sent (after (ClientA.create_beam clientA0 "note" "t" [] "b" None None)
               (mock (ok PNone))) = [rq2]
    /\ rq_json rq1 = Some payload
    /\ payload !! "pinned" = Some (PBool false)
    /\ rq_json rq1 <> rq_json rq2.
Proof.
  unfold after, ClientA.create_beam. rewrite !after_then_lift, !ClientA_request_eq.
  eexists _, _, _. split; [reflexivity|]. split; [reflexivity|].
  split; [reflexivity|]. split; [reflexivity|].
  intros E.
  apply (f_equal (fun o : option dict =>
                    match o with Some d => d !! "pinned" | None => None end)) in E.
  vm_compute in E. discriminate.
Qed.

(** ** C7: [query_beams] on a well-formed answer *)

Lemma requests_status_ok (r : Response) :
  (200 <= status_code r <= 299)%Z -> requests.raise_for_status r = Ret ().
Proof.
  intros Hs. unfold requests.raise_for_status.
  rewrite !bool_decide_eq_false_2 by lia. reflexivity.
Qed.

Lemma answerA_ok (r : Response) (data : pyval) :
  (200 <= status_code r <= 299)%Z ->
  json_body r = Some data ->
  answerA (Responds r) = Ret data.
Proof.
  intros Hs Hj. unfold answerA, requests.json.
  rewrite (requests_status_ok r Hs), Hj. reflexivity.
Qed.

Lemma Beam_of_fields (e : pyval) :
  is_beam_json e ->
  exists b, ClientA.Beam_of e = Ret b /\ beam_fields_of e b.
Proof.
  intros (d & -> & Hk).
  repeat (apply Forall_cons in Hk; destruct Hk as [[? ?] Hk]).
  eexists. split.
  - unfold ClientA.Beam_of, subscript, bindR.
    repeat match goal with E : d !! _ = Some _ |- _ => rewrite E; clear E end.
    reflexivity.
  - exists d. simpl. repeat split; assumption.
Qed.

Lemma mapR_Forall2 {A B} (f : A -> result B) (P : A -> Prop) (Q : A -> B -> Prop)
    (l : list A) :
  (forall a, P a -> exists b, f a = Ret b /\ Q a b) ->
  Forall P l ->
  exists bs, mapR f l = Ret bs /\ Forall2 Q l bs.
Proof.
  intros Hf. induction 1 as [|a l Ha _ IH].
  - exists []. split; [reflexivity|constructor].
  - destruct (Hf a Ha) as (b & Eb & Qb). destruct IH as (bs & Ebs & Qbs).
    exists (b :: bs). split.
    + simpl. rewrite Eb. simpl. rewrite Ebs. reflexivity.
    + constructor; assumption.
Qed.

(** C7: when the transport answers [query_beams] with a success status
    and the body {"beams": [...], "total": N}, each element having the
    fields of a beam, the call returns the beams in the order of the
    array, as many as the array has, each with the fields of its element
    as they are, and [total] is [N] whatever the array's length. *)
Theorem query_beams_keeps_order (self : ClientA.MathisonClient)
    (text : option string) (tags kinds : option (list string))
    (include_dead : option bool) (limit : option Z) (w : World)
    (r : Response) (d : dict) (elems : list pyval) (N : pyval) :
  (forall rq, wire w rq = Responds r) ->
  (200 <= status_code r <= 299)%Z ->
  json_body r = Some (PDict d) ->
  d !! "beams" = Some (PList elems) ->
  d !! "total" = Some N ->
  Forall is_beam_json elems ->
  exists beams,
    run (ClientA.query_beams self text tags kinds include_dead limit) w
      = Ret (ClientA.BeamQueryResponse.mk beams N)
    /\ length beams = length elems
    /\ Forall2 beam_fields_of elems beams.
Proof.
  intros Hw Hs Hj Hb Ht He.
  destruct (mapR_Forall2 ClientA.Beam_of is_beam_json beam_fields_of elems
              Beam_of_fields He) as (beams & Em & HF).
  exists beams. split; [|split; [symmetry; eapply Forall2_length, HF|exact HF]].
  unfold run, ClientA.query_beams.
  rewrite (bind_eq _ _ _ _ _ (ClientA_request_eq _ _ _ _ _ w)).
  rewrite Hw, (answerA_ok r _ Hs Hj).
  unfold lift, subscript, iterate. simpl. rewrite Hb. simpl.
  rewrite Em. simpl. rewrite Ht. reflexivity.
Qed.

Lemma query_beams_keeps_order_witness :
  exists beams,
    run (ClientA.query_beams clientA0 None None None None None)
      (mock (Responds (beams_response two_beams (PInt 40))))
      = Ret (ClientA.BeamQueryResponse.mk beams (PInt 40))
    /\ length beams = length two_beams
    /\ Forall2 beam_fields_of two_beams beams.
Proof.
  apply (query_beams_keeps_order clientA0 None None None None None
           (mock (Responds (beams_response two_beams (PInt 40))))
           (beams_response two_beams (PInt 40))
           (<["beams" := PList two_beams]> (<["total" := PInt 40]> ∅))
           two_beams (PInt 40)).
  - reflexivity.
  - simpl. lia.
  - reflexivity.
  - reflexivity.
  - reflexivity.
  - repeat constructor; eexists; (split; [reflexivity|]);
      repeat constructor; eexists; reflexivity.
Defined.

(** ** C8: clients as scoped resources *)

(** X12: Client B in a [with] block ([async with] for the asynchronous
    class): the pool is closed on the way out, whether the body returned
    or raised, and [__exit__] swallows nothing, so what the body returned
    or raised is what the statement returns or raises. *)
Theorem ClientB_with_releases {A} (self : ClientB.MathisonClient)
    (body : ClientB.MathisonClient -> M A) (w : World) :
  (httpx.pool (ClientB._client self) ∉ live (after (with_ self body) w))
  /\ run (with_ self body) w
       = match run (body self) w with
         | Ret a => Ret (Some a)
         | Raise e => Raise e
         end.
Proof.
  unfold after, run, with_. simpl.
  unfold bind, ClientB.__enter__, ClientB.__exit__, ClientB.close, httpx.close,
    ret, raise, bind. simpl.
  destruct (body self w) as [[a|e] w']; simpl; split; try reflexivity;
    rewrite elem_of_difference, elem_of_singleton; tauto.
Qed.

(** C8 at Client A: the class has no [__enter__], [__exit__] or [close],
    so [with MathisonClient(...) as client: body] raises before the body
    runs and the session the constructor opened stays open. *)
Theorem ClientA_with_leaks_session (url : string) (key : option string) (t : Z)
    (body : ClientA.MathisonClient -> M pyval) (w : World) :
  exists c msg,
    run (ClientA.__init__ url key t) w = Ret c
    /\ run (c <- ClientA.__init__ url key t ;; with_ c body)%M w
         = Raise (Exc TypeError msg None)
    /\ sent (after (c <- ClientA.__init__ url key t ;; with_ c body)%M w) = sent w
    /\ (requests.pool (ClientA.session c)
          ∈ live (after (c <- ClientA.__init__ url key t ;; with_ c body)%M w)).
Proof.
  eexists _, _. split; [reflexivity|]. split; [reflexivity|].
  split; [reflexivity|]. unfold after; simpl.
  destruct (truthy key); simpl; apply elem_of_union_l, elem_of_singleton;
    reflexivity.
Qed.

(** ** C9: the headers of every request *)

Lemma ClientA_init_headers (url : string) (key : option string) (t : Z)
    (w0 : World) :
  exists a,
    run (ClientA.__init__ url key t) w0 = Ret a
    /\ requests.headers (ClientA.session a) !! "Content-Type"
         = Some "application/json"
    /\ requests.headers (ClientA.session a) !! "Authorization"
         = match key with
           | Some s => if truthy s then Some ("Bearer " +:+ s) else None
           | None => None
           end.
Proof.
  eexists. split; [reflexivity|]. simpl. split.
  - apply lookup_insert_eq.
  - rewrite lookup_insert_ne by done.
    destruct key as [[|c s]|]; reflexivity.
Qed.

Lemma ClientB_headers (self : ClientB.MathisonClient) :
  ClientB._headers self !! "Content-Type" = Some "application/json"
  /\ ClientB._headers self !! "Authorization"
       = match ClientB.api_key self with
         | Some s => if truthy s then Some ("Bearer " +:+ s) else None
         | None => None
         end.
Proof.
  unfold ClientB._headers.
  destruct (ClientB.api_key self) as [[|c s]|]; split; reflexivity.
Qed.

(** C9, as the code has it.  Every request of every endpoint method of a
    client built by a constructor carries Content-Type: application/json,
    and carries Authorization: Bearer <key> exactly when the [api_key]
    given to the constructor is a non-empty string. *)
Theorem request_headers {P : Pydantic} (url : string) (key : option string)
    (tA : Z) (tB : float) (k : httpx.flavour) (w0 : World)
    (ca : ClientA.call) (cb : ClientB.call) (w : World) :
  (exists a rq,
      run (ClientA.__init__ url key tA) w0 = Ret a
      /\ sent (after (ClientA.invoke a ca) w) = sent w ++ [rq]
      /\ rq_headers rq !! "Content-Type" = Some "application/json"
      /\ rq_headers rq !! "Authorization"
           = match key with
             | Some s => if truthy s then Some ("Bearer " +:+ s) else None
             | None => None
             end)
  /\ (exists b rq,
         run (ClientB.init k url key tB) w0 = Ret b
         /\ sent (after (ClientB.invoke b cb) w) = sent w ++ [rq]
         /\ rq_headers rq !! "Content-Type" = Some "application/json"
         /\ rq_headers rq !! "Authorization"
              = match key with
                | Some s => if truthy s then Some ("Bearer " +:+ s) else None
                | None => None
                end).
Proof.
  split.
  - destruct (ClientA_init_headers url key tA w0) as (a & Ea & Hc & Ha).
    destruct (ClientA_invoke_request a ca) as (m & p & j & q & Hrq).
    destruct (Hrq w) as [Hafter _].
    exists a, (requestA a m p j q). rewrite Hafter.
    repeat split; assumption.
  - set (b := ClientB.mkClient (rstrip "/" url) key tB
                (httpx.mkClient k (fresh w0) (PFloat tB))).
    destruct (ClientB_invoke_request b cb) as (m & p & q & j & Hrq).
    destruct (Hrq w) as [Hafter _].
    exists b, (requestB b m p q j). rewrite Hafter.
    split; [reflexivity|]. split; [reflexivity|].
    apply (ClientB_headers b).
Qed.

(** C9 as stated fails on an empty key: a client built with [api_key=""]
    has a key configured, and its requests carry no Authorization. *)
Lemma empty_api_key_sends_no_Authorization :
  exists a rq,
    run (ClientA.__init__ "http://localhost:3000" (Some "") 30) (mock (ok PNone))
      = Ret a
    /\ ClientA.api_key a = Some ""
    /\ sent (after (ClientA.health a) (mock (ok PNone))) = [rq]
    /\ rq_headers rq !! "Authorization" = None.
Proof.
  eexists _, _. split; [reflexivity|]. split; [reflexivity|].
  unfold after, ClientA.health. rewrite ClientA_request_eq.
  split; [reflexivity|]. vm_compute. reflexivity.
Qed.

(** * Further properties of the code *)

(** ** The stored base URL *)

Lemma append_empty_l (s : string) : "" +:+ s = s.
Proof. reflexivity. Qed.

Lemma append_String (c : ascii) (s t : string) :
  String c s +:+ t = String c (s +:+ t).
Proof. reflexivity. Qed.

Lemma rstrip_slashes (s : string) :
  exists n,
    s = rstrip "/" s +:+ slashes n /\ ends_with "/" (rstrip "/" s) = false.
Proof.
  induction s as [|a s (n & Es & En)].
  - exists 0. split; reflexivity.
  - change (rstrip "/" (String a s))
      with (match rstrip "/" s with
            | EmptyString => if char_in a "/" then EmptyString else String a EmptyString
            | r => String a r
            end).
    destruct (rstrip "/" s) as [|b r] eqn:Er.
    + rewrite append_empty_l in Es. unfold char_in.
      destruct (Ascii.eqb a "/") eqn:Ea.
      * apply Ascii.eqb_eq in Ea. subst a. exists (S n).
        rewrite append_empty_l. simpl. split; [congruence|reflexivity].
      * exists n. rewrite append_String, append_empty_l. simpl. rewrite Ea.
        split; [congruence|reflexivity].
    + exists n. split.
      * rewrite append_String. congruence.
      * exact En.
Qed.

(** X1: whatever the [base_url] argument, each constructor stores it
    without any of its trailing slashes: the stored URL does not end in a
    slash, and the argument is the stored URL followed by slashes only. *)
Theorem base_url_has_no_trailing_slash (url : string) (key : option string)
    (tA : Z) (tB : float) (k : httpx.flavour) (w : World) :
  exists a b n,
    run (ClientA.__init__ url key tA) w = Ret a
    /\ run (ClientB.init k url key tB) w = Ret b
    /\ ClientB.base_url b = ClientA.base_url a
    /\ ends_with "/" (ClientA.base_url a) = false
    /\ url = ClientA.base_url a +:+ slashes n.
Proof.
  destruct (rstrip_slashes url) as (n & Es & En).
  eexists _, _, n. split; [reflexivity|]. split; [reflexivity|].
  split; [reflexivity|]. split; assumption.
Qed.

(** ** One request per call, nothing else touched *)

(** X2: every endpoint method of either client hands exactly one request
    to its HTTP library, whether the exchange succeeds or not, to an
    address that starts with the stored base URL, and leaves the open
    pools as they were. *)
Theorem one_request_per_call {P : Pydantic} (a : ClientA.MathisonClient)
    (ca : ClientA.call) (b : ClientB.MathisonClient) (cb : ClientB.call)
    (w : World) :
  (exists rq path,
      sent (after (ClientA.invoke a ca) w) = sent w ++ [rq]
      /\ live (after (ClientA.invoke a ca) w) = live w
      /\ rq_url rq = ClientA.base_url a +:+ path
      /\ rq_timeout rq = PInt (ClientA.timeout a))
  /\ (exists rq path,
         sent (after (ClientB.invoke b cb) w) = sent w ++ [rq]
         /\ live (after (ClientB.invoke b cb) w) = live w
         /\ rq_url rq = ClientB.base_url b +:+ path).
Proof.
  split.
  - destruct (ClientA_invoke_request a ca) as (m & p & j & q & Hrq).
    destruct (Hrq w) as [-> _]. exists (requestA a m p j q), p.
    repeat split.
  - destruct (ClientB_invoke_request b cb) as (m & p & q & j & Hrq).
    destruct (Hrq w) as [-> _]. exists (requestB b m p q j), p.
    repeat split.
Qed.

(** ** What comes back on success *)

Lemma answerB_ok (r : Response) (data : pyval) :
  success r -> json_body r = Some data -> answerB (Responds r) = Ret data.
Proof.
  intros Hs Hj. unfold answerB, httpx.raise_for_status, httpx.json.
  rewrite bool_decide_eq_true_2 by exact Hs. rewrite Hj. reflexivity.
Qed.

Lemma ClientA_request_ok (self : ClientA.MathisonClient) (method path : string)
    (json params : option dict) (w : World) (r : Response) (data : pyval) :
  answers w r -> success r -> json_body r = Some data ->
  ClientA._request self method path json params w
    = (Ret data, logged (requestA self method path json params) w).
Proof.
  intros Hw Hs Hj. rewrite ClientA_request_eq, Hw, (answerA_ok r data Hs Hj).
  reflexivity.
Qed.

Lemma ClientB_get_ok (self : ClientB.MathisonClient) (path : string)
    (params : option dict) (w : World) (r : Response) (data : pyval) :
  answers w r -> success r -> json_body r = Some data ->
  ClientB._get self path params w
    = (Ret data, logged (requestB self "GET" path params None) w).
Proof.
  intros Hw Hs Hj. rewrite ClientB_get_eq, Hw, (answerB_ok r data Hs Hj).
  reflexivity.
Qed.

Lemma ClientB_post_ok (self : ClientB.MathisonClient) (path : string)
    (json : option dict) (w : World) (r : Response) (data : pyval) :
  answers w r -> success r -> json_body r = Some data ->
  ClientB._post self path json w
    = (Ret data, logged (requestB self "POST" path None json) w).
Proof.
  intros Hw Hs Hj. rewrite ClientB_post_eq, Hw, (answerB_ok r data Hs Hj).
  reflexivity.
Qed.

(** X3: on a success status with a JSON body, the methods typed as plain
    dictionaries hand the decoded body back as it is, whatever it holds:
    [health], [get_status], [get_identity], [pin_beam], [unpin_beam],
    [retire_beam] and [tombstone_beam] of Client A, and [resume_job],
    [create_hyperedge] and [update_node] of Client B. *)
Theorem raw_body_returned (a : ClientA.MathisonClient)
    (b : ClientB.MathisonClient) (id reason_code : string)
    (approval_token : option string) (w : World) (r : Response) (data : pyval) :
  answers w r -> success r -> json_body r = Some data ->
  forall m : M pyval,
    In m [ ClientA.health a; ClientA.get_status a; ClientA.get_identity a;
           ClientA.pin_beam a id; ClientA.unpin_beam a id;
           ClientA.retire_beam a id;
           ClientA.tombstone_beam a id reason_code approval_token;
           ClientB.resume_job b; ClientB.create_hyperedge b;
           ClientB.update_node b id ] ->
    run m w = Ret data.
Proof.
  intros Hw Hs Hj m Hm. simpl in Hm. unfold run.
  repeat (destruct Hm as [<-|Hm];
          [ unfold ClientA.health, ClientA.get_status, ClientA.get_identity,
              ClientA.pin_beam, ClientA.unpin_beam, ClientA.retire_beam,
              ClientA.tombstone_beam, ClientB.resume_job,
              ClientB.create_hyperedge, ClientB.update_node;
            first [ by erewrite ClientA_request_ok
                  | by erewrite ClientB_post_ok ] | ]).
  destruct Hm.
Qed.

Lemma raw_body_returned_witness :
  run (ClientA.health clientA0)
    (mock (ok (PDict (<["status" := PStr "ok"]> ∅))))
    = Ret (PDict (<["status" := PStr "ok"]> ∅)).
Proof.
  apply (raw_body_returned clientA0 clientB0 "b-1" "dup" None
           (mock (ok (PDict (<["status" := PStr "ok"]> ∅))))
           (mkResponse 200 "OK" "http://localhost:3000/"
              (Some (PDict (<["status" := PStr "ok"]> ∅))))).
  - intros rq. reflexivity.
  - unfold success. simpl. lia.
  - reflexivity.
  - left. reflexivity.
Defined.

(** ** Failures that are not request failures *)





(** ** Chat *)

Lemma ChatMessage_of_fields (e : pyval) :
  is_message_json e ->
  exists m, ClientA.ChatMessage_of e = Ret m /\ message_fields_of e m.
Proof.
  intros (d & -> & Hk).
  repeat (apply Forall_cons in Hk; destruct Hk as [[? ?] Hk]).
  eexists. split.
  - unfold ClientA.ChatMessage_of, subscript, dict_get, bindR.
    repeat match goal with E : d !! _ = Some _ |- _ => rewrite E; clear E end.
    reflexivity.
  - exists d. simpl. repeat split; assumption.
Qed.

(** X6: when the transport answers [send_message] with a success status
    and an object whose "message" has id, role, content and timestamp, the
    call posts {"content": content} to /api/chat/send and returns those
    four fields as they are; a missing "metadata" or "stream_id" comes
    back as [None]. *)
Theorem send_message_result (self : ClientA.MathisonClient) (content : string)
    (w : World) (r : Response) (d : dict) (msg : pyval) :
  answers w r -> success r -> json_body r = Some (PDict d) ->
  d !! "message" = Some msg ->
  is_message_json msg ->
  exists m rq,
    run (ClientA.send_message self content) w
      = Ret (ClientA.SendMessageResponse.mk m (default PNone (d !! "stream_id")))
    /\ message_fields_of msg m
    /\ sent (after (ClientA.send_message self content) w) = sent w ++ [rq]
    /\ rq_method rq = "POST"
    /\ rq_url rq = ClientA.base_url self +:+ "/api/chat/send"
    /\ rq_json rq = Some {[ "content" := PStr content ]}.
Proof.
  intros Hw Hs Hj Hm Hmsg.
  destruct (ChatMessage_of_fields msg Hmsg) as (m & Em & Hf).
  exists m, (requestA self "POST" "/api/chat/send"
               (Some {[ "content" := PStr content ]}) None).
  unfold run, after, ClientA.send_message. rewrite after_then_lift.
  rewrite (bind_eq _ _ _ _ _ (ClientA_request_ok _ _ _ _ _ w r _ Hw Hs Hj)).
  rewrite (ClientA_request_ok _ _ _ _ _ w r _ Hw Hs Hj).
  unfold lift, subscript, dict_get. simpl. rewrite Hm. simpl. rewrite Em. simpl.
  repeat split. exact Hf.
Qed.

Lemma send_message_result_witness :
  exists m rq,
    run (ClientA.send_message clientA0 "hi") (mock (Responds send_response))
      = Ret (ClientA.SendMessageResponse.mk m
               (default PNone
                  ((<["message" := PDict message_json]> ∅ : dict) !! "stream_id")))
    /\ message_fields_of (PDict message_json) m
    /\ sent (after (ClientA.send_message clientA0 "hi")
               (mock (Responds send_response)))
         = sent (mock (Responds send_response)) ++ [rq]
    /\ rq_method rq = "POST"
    /\ rq_url rq = ClientA.base_url clientA0 +:+ "/api/chat/send"
    /\ rq_json rq = Some {[ "content" := PStr "hi" ]}.
Proof.
  apply (send_message_result clientA0 "hi" (mock (Responds send_response))
           send_response (<["message" := PDict message_json]> ∅)
           (PDict message_json)).
  - intros rq. reflexivity.
  - unfold success. simpl. lia.
  - reflexivity.
  - reflexivity.
  - eexists. split; [reflexivity|]. repeat constructor; eexists; reflexivity.
Defined.

(** X7: a success answer that is an object without "message" makes
    [send_message] raise [KeyError] for that key, with no context: the
    request went out and succeeded, and the error is not the generic
    request failure. *)
Theorem send_message_without_message (self : ClientA.MathisonClient)
    (content : string) (w : World) (r : Response) (d : dict) :
  answers w r -> success r -> json_body r = Some (PDict d) ->
  d !! "message" = None ->
  run (ClientA.send_message self content) w
    = Raise (Exc KeyError "'message'" None)
  /\ length (sent (after (ClientA.send_message self content) w))
       = S (length (sent w)).
Proof.
  intros Hw Hs Hj Hm.
  unfold run, after, ClientA.send_message. rewrite after_then_lift.
  rewrite (bind_eq _ _ _ _ _ (ClientA_request_ok _ _ _ _ _ w r _ Hw Hs Hj)).
  rewrite (ClientA_request_ok _ _ _ _ _ w r _ Hw Hs Hj).
  unfold lift, subscript. simpl. rewrite Hm. split; [reflexivity|].
  rewrite length_app. simpl. lia.
Qed.

Lemma send_message_without_message_witness :
  run (ClientA.send_message clientA0 "hi") (mock (ok (PDict ∅)))
    = Raise (Exc KeyError "'message'" None)
  /\ length (sent (after (ClientA.send_message clientA0 "hi") (mock (ok (PDict ∅)))))
       = S (length (sent (mock (ok (PDict ∅))))).
Proof.
  apply (send_message_without_message clientA0 "hi" (mock (ok (PDict ∅)))
           (mkResponse 200 "OK" "http://localhost:3000/" (Some (PDict ∅))) ∅).
  - intros rq. reflexivity.
  - unfold success. simpl. lia.
  - reflexivity.
  - reflexivity.
Defined.

(** X8: when the transport answers [get_chat_history] with a success
    status and an object holding "messages" (an array of message objects),
    "total", "limit" and "offset", the call returns the messages in the
    order of the array, each with its fields as they are, and the three
    numbers as the answer has them: the [limit] and [offset] returned are
    the server's, not the arguments. *)
Theorem get_chat_history_keeps_order (self : ClientA.MathisonClient)
    (limit offset : option Z) (w : World) (r : Response) (d : dict)
    (elems : list pyval) (total rlimit roffset : pyval) :
  answers w r -> success r -> json_body r = Some (PDict d) ->
  d !! "messages" = Some (PList elems) ->
  d !! "total" = Some total ->
  d !! "limit" = Some rlimit ->
  d !! "offset" = Some roffset ->
  Forall is_message_json elems ->
  exists messages,
    run (ClientA.get_chat_history self limit offset) w
      = Ret (ClientA.ChatHistoryResponse.mk messages total rlimit roffset)
    /\ Forall2 message_fields_of elems messages.
Proof.
  intros Hw Hs Hj Hm Ht Hl Ho He.
  destruct (mapR_Forall2 ClientA.ChatMessage_of is_message_json
              message_fields_of elems ChatMessage_of_fields He)
    as (messages & Em & HF).
  exists messages. split; [|exact HF].
  unfold run, ClientA.get_chat_history.
  rewrite (bind_eq _ _ _ _ _ (ClientA_request_ok _ _ _ _ _ w r _ Hw Hs Hj)).
  unfold lift, subscript, iterate. simpl. rewrite Hm. simpl.
  rewrite Em. simpl. rewrite Ht. simpl. rewrite Hl. simpl. rewrite Ho.
  reflexivity.
Qed.

Lemma get_chat_history_keeps_order_witness :
  exists messages,
    run (ClientA.get_chat_history clientA0 (Some 1%Z) None)
      (mock (ok (PDict (<["messages" := PList [PDict message_json]]>
                          (<["total" := PInt 9]>
                             (<["limit" := PInt 50]>
                                (<["offset" := PInt 0]> ∅)))))))
      = Ret (ClientA.ChatHistoryResponse.mk messages (PInt 9) (PInt 50) (PInt 0))
    /\ Forall2 message_fields_of [PDict message_json] messages.
Proof.
  apply (get_chat_history_keeps_order clientA0 (Some 1%Z) None _
           (mkResponse 200 "OK" "http://localhost:3000/"
              (Some (PDict (<["messages" := PList [PDict message_json]]>
                              (<["total" := PInt 9]>
                                 (<["limit" := PInt 50]>
                                    (<["offset" := PInt 0]> ∅)))))))
           (<["messages" := PList [PDict message_json]]>
              (<["total" := PInt 9]>
                 (<["limit" := PInt 50]> (<["offset" := PInt 0]> ∅))))).
  - intros rq. reflexivity.
  - unfold success. simpl. lia.
  - reflexivity.
  - reflexivity.
  - reflexivity.
  - reflexivity.
  - reflexivity.
  - repeat constructor. eexists. split; [reflexivity|].
    repeat constructor; eexists; reflexivity.
Defined.

(** ** Beams: nothing is skipped *)

Lemma mapR_inv {A B} (f : A -> result B) (l : list A) (bs : list B) :
  mapR f l = Ret bs -> Forall2 (fun a b => f a = Ret b) l bs.
Proof.
  revert bs. induction l as [|a l IH]; intros bs; simpl.
  - intros [= <-]. constructor.
  - destruct (f a) as [b|e] eqn:Eb; simpl; [|discriminate].
    destruct (mapR f l) as [bs'|e]; simpl; [|discriminate].
    intros [= <-]. constructor; [exact Eb|apply IH; reflexivity].
Qed.

Lemma Beam_of_inv (e : pyval) (b : ClientA.Beam.t) :
  ClientA.Beam_of e = Ret b -> beam_fields_of e b /\ is_beam_json e.
Proof.
  unfold ClientA.Beam_of, subscript, bindR.
  destruct e as [| | | | | |d]; try discriminate.
  intros H.
  repeat match type of H with
         | context [d !! ?k] =>
             destruct (d !! k) eqn:?; [|discriminate]
         end.
  injection H as <-. split.
  - exists d. simpl. repeat split; assumption.
  - exists d. split; [reflexivity|].
    repeat constructor; eexists; eassumption.
Qed.

(** X9: [query_beams] has no partial result.  Whenever it returns on an
    answer whose "beams" is an array, every element of the array was a
    complete beam object and is in the result at its own position, and
    [total] is the answer's. *)
Theorem query_beams_all_or_nothing (self : ClientA.MathisonClient)
    (text : option string) (tags kinds : option (list string))
    (include_dead : option bool) (limit : option Z) (w : World)
    (r : Response) (d : dict) (elems : list pyval)
    (res : ClientA.BeamQueryResponse.t) :
  answers w r -> json_body r = Some (PDict d) ->
  d !! "beams" = Some (PList elems) ->
  run (ClientA.query_beams self text tags kinds include_dead limit) w = Ret res ->
  Forall is_beam_json elems
  /\ Forall2 beam_fields_of elems (ClientA.BeamQueryResponse.beams res)
  /\ d !! "total" = Some (ClientA.BeamQueryResponse.total res).
Proof.
  intros Hw Hj Hb. unfold run, ClientA.query_beams.
  rewrite (bind_eq _ _ _ _ _ (ClientA_request_eq _ _ _ _ _ w)), Hw.
  unfold answerA, requests.json. rewrite Hj.
  destruct (requests.raise_for_status r); [|discriminate].
  unfold lift, subscript, iterate. simpl. rewrite Hb. simpl.
  destruct (mapR ClientA.Beam_of elems) as [beams|e] eqn:Em; [|discriminate].
  simpl. destruct (d !! "total") as [total|]; [|discriminate].
  simpl. intros [= <-]. simpl.
  apply mapR_inv in Em.
  split; [|split; [|reflexivity]].
  - eapply Forall2_Forall_l; [exact Em|].
    apply Forall_forall. intros y _ x Hxy. apply (Beam_of_inv x y Hxy).
  - eapply Forall2_impl; [exact Em|]. intros x y Hxy.
    apply (Beam_of_inv x y Hxy).
Qed.

Lemma query_beams_all_or_nothing_witness :
  Forall is_beam_json two_beams
  /\ Forall2 beam_fields_of two_beams
       (ClientA.BeamQueryResponse.beams
          (ClientA.BeamQueryResponse.mk
             [ClientA.Beam.mk (PStr "b-2") (PStr "note") (PStr "second")
                (PList [PStr "a"; PStr "b"]) (PStr "") (PStr "active")
                (PBool true) (PInt 1700000000000);
              ClientA.Beam.mk (PStr "b-1") (PStr "note") (PStr "first")
                (PList [PStr "a"; PStr "b"]) (PStr "") (PStr "active")
                (PBool false) (PInt 1700000000000)]
             (PInt 40)))
  /\ (<["beams" := PList two_beams]> (<["total" := PInt 40]> ∅) : dict) !! "total"
     = Some (ClientA.BeamQueryResponse.total
               (ClientA.BeamQueryResponse.mk
                  [ClientA.Beam.mk (PStr "b-2") (PStr "note") (PStr "second")
                     (PList [PStr "a"; PStr "b"]) (PStr "") (PStr "active")
                     (PBool true) (PInt 1700000000000);
                   ClientA.Beam.mk (PStr "b-1") (PStr "note") (PStr "first")
                     (PList [PStr "a"; PStr "b"]) (PStr "") (PStr "active")
                     (PBool false) (PInt 1700000000000)]
                  (PInt 40))).
Proof.
  apply (query_beams_all_or_nothing clientA0 None None None None (Some 2%Z)
           (mock (Responds (beams_response two_beams (PInt 40))))
           (beams_response two_beams (PInt 40))
           (<["beams" := PList two_beams]> (<["total" := PInt 40]> ∅))
           two_beams).
  - intros rq. reflexivity.
  - reflexivity.
  - reflexivity.
  - vm_compute. reflexivity.
Defined.

(** ** Beam lifecycle requests *)

(** X10: the lifecycle methods of Client A put the beam id into the path
    as it is.  [pin_beam] and [unpin_beam] address the same URL and differ
    in the verb only (POST, DELETE); [retire_beam] posts to .../retire;
    none of the three sends a body or a query; [tombstone_beam] posts the
    reason code to .../tombstone; and [update_beam] with nothing to update
    still sends PATCH, with the empty object as its body. *)
Theorem beam_lifecycle_requests (self : ClientA.MathisonClient)
    (id reason_code : string) (approval_token : option string) (w : World) :
  sent (after (ClientA.pin_beam self id) w)
    = sent w ++ [mkRequest "POST"
                   (ClientA.base_url self +:+ "/api/beams/" +:+ id +:+ "/pin")
                   (requests.headers (ClientA.session self)) None None
                   (PInt (ClientA.timeout self))]
  /\ sent (after (ClientA.unpin_beam self id) w)
       = sent w ++ [mkRequest "DELETE"
                      (ClientA.base_url self +:+ "/api/beams/" +:+ id +:+ "/pin")
                      (requests.headers (ClientA.session self)) None None
                      (PInt (ClientA.timeout self))]
  /\ sent (after (ClientA.retire_beam self id) w)
       = sent w ++ [mkRequest "POST"
                      (ClientA.base_url self +:+ "/api/beams/" +:+ id +:+ "/retire")
                      (requests.headers (ClientA.session self)) None None
                      (PInt (ClientA.timeout self))]
  /\ (exists payload,
         sent (after (ClientA.tombstone_beam self id reason_code approval_token) w)
           = sent w ++ [mkRequest "POST"
                          (ClientA.base_url self +:+ "/api/beams/" +:+ id
                             +:+ "/tombstone")
                          (requests.headers (ClientA.session self)) None
                          (Some payload) (PInt (ClientA.timeout self))]
         /\ payload !! "reason_code" = Some (PStr reason_code))
  /\ sent (after (ClientA.update_beam self id None None None) w)
       = sent w ++ [mkRequest "PATCH"
                      (ClientA.base_url self +:+ "/api/beams/" +:+ id)
                      (requests.headers (ClientA.session self)) None
                      (Some ∅) (PInt (ClientA.timeout self))].
Proof.
  unfold after, ClientA.pin_beam, ClientA.unpin_beam, ClientA.retire_beam,
    ClientA.tombstone_beam, ClientA.update_beam.
  rewrite after_then_lift, !ClientA_request_eq.
  repeat split.
  eexists. split; [reflexivity|].
  unfold ClientA.tombstone_beam_payload. rewrite lookup_if_insert.
  destruct (truthy approval_token); simpl; apply lookup_singleton_eq.
Qed.

(** ** Client B: what the methods send *)

Lemma truthy_dict_insert {A} (d : gmap string A) (k : string) (v : A) :
  truthy (<[k := v]> d) = true.
Proof. apply bool_decide_eq_true_2, insert_non_empty. Qed.

Lemma truthy_dict_empty {A} : truthy (∅ : gmap string A) = false.
Proof. apply bool_decide_eq_false_2. intros H. apply H. reflexivity. Qed.

Lemma truthy_Some_empty : truthy (Some (∅ : dict)) = false.
Proof. apply (truthy_dict_empty (A := pyval)). Qed.

(** X11: [get_job_status] of Client B sends GET /jobs/status with
    "job_id" exactly when the argument is a non-empty string and "limit"
    exactly when it is a non-zero number ([limit=0] is dropped), and with
    no query at all, rather than an empty one, when both are left out. *)
Theorem get_job_status_query {P : Pydantic} (self : ClientB.MathisonClient)
    (job_id : option string) (limit : option Z) (w : World) :
  exists rq,
    sent (after (ClientB.get_job_status self job_id limit) w) = sent w ++ [rq]
    /\ rq_method rq = "GET"
    /\ rq_url rq = ClientB.base_url self +:+ "/jobs/status"
    /\ rq_params rq ≫= (fun ps => ps !! "job_id")
         = (if truthy job_id then PStr <$> job_id else None)
    /\ rq_params rq ≫= (fun ps => ps !! "limit")
         = (if truthy limit then PInt <$> limit else None)
    /\ (rq_params rq = None <-> truthy job_id = false /\ truthy limit = false).
Proof.
  unfold after, ClientB.get_job_status. rewrite after_then_lift, ClientB_get_eq.
  eexists. split; [reflexivity|]. split; [reflexivity|]. split; [reflexivity|].
  unfold requestB. cbn [rq_params].
  destruct job_id as [[|c s]|], limit as [[|p|p]|];
    cbn [truthy truthy_option truthy_string truthy_Z Z.eqb negb];
    rewrite ?truthy_dict_insert, ?truthy_dict_empty; cbn [mbind option_bind];
    rewrite ?lookup_insert_ne by done;
    rewrite ?lookup_insert_eq, ?lookup_empty;
    (split; [reflexivity|]); (split; [reflexivity|]);
    (split; [intros; (discriminate || (split; reflexivity))
            |intros [? ?]; (discriminate || reflexivity)]).
Qed.

(** ** Client B: what the methods return *)

(** X13: on a success answer that is a JSON object, [get_job_status]
    builds a [JobResult] only when the object has the key "job_id";
    without it the object itself comes back, unvalidated, under the return
    type [JobResult]. *)
Theorem get_job_status_result {P : Pydantic} (self : ClientB.MathisonClient)
    (job_id : option string) (limit : option Z) (w : World) (r : Response)
    (d : dict) :
  answers w r -> success r -> json_body r = Some (PDict d) ->
  run (ClientB.get_job_status self job_id limit) w
    = match d !! "job_id" with
      | Some _ => bindR (validate JobResult d) (fun m => Ret (ClientB.VModel m))
      | None => Ret (ClientB.VRaw (PDict d))
      end.
Proof.
  intros Hw Hs Hj. unfold run, ClientB.get_job_status.
  rewrite (bind_eq _ _ _ _ _ (ClientB_get_ok _ _ _ w r _ Hw Hs Hj)).
  unfold lift, contains, ClientB.build, kwargs. simpl.
  destruct (d !! "job_id") as [x|].
  - rewrite bool_decide_eq_true_2 by (eexists; reflexivity). reflexivity.
  - rewrite bool_decide_eq_false_2 by (intros [x Hx]; discriminate). reflexivity.
Qed.

Lemma get_job_status_result_witness :
  run (ClientB.get_job_status (P := unvalidated) clientB0 (Some "j-1") None)
    (mock (ok (PDict (<["jobs" := PList []]> ∅))))
    = match (<["jobs" := PList []]> ∅ : dict) !! "job_id" with
      | Some _ =>
          bindR (validate (Pydantic := unvalidated) JobResult (<["jobs" := PList []]> ∅))
            (fun m => Ret (ClientB.VModel m))
      | None => Ret (ClientB.VRaw (PDict (<["jobs" := PList []]> ∅)))
      end.
Proof.
  apply (get_job_status_result (P := unvalidated) clientB0 (Some "j-1") None
           (mock (ok (PDict (<["jobs" := PList []]> ∅))))
           (mkResponse 200 "OK" "http://localhost:3000/"
              (Some (PDict (<["jobs" := PList []]> ∅))))).
  - intros rq. reflexivity.
  - unfold success. simpl. lia.
  - reflexivity.
Defined.

(** X14: the model-returning methods of Client B pass the decoded body
    whole to their model class as keyword arguments and return what the
    class makes of it: nothing is picked, renamed or defaulted by the
    client.  A body that is not a JSON object never reaches the class: the
    keyword unpacking raises [TypeError]. *)
Theorem models_built_from_whole_body {P : Pydantic}
    (self : ClientB.MathisonClient) (id text query job_type : string)
    (inputs metadata ndata : option dict) (policy_id nid : option string)
    (key from_node to_node type : string) (limit : Z) (olimit : option Z)
    (w : World) (r : Response) (data : pyval) :
  answers w r -> success r -> json_body r = Some data ->
  (forall m cls,
      In (m, cls)
        [ (ClientB.get_genome self, GenomeMetadata);
          (ClientB.get_health self, HealthResponse);
          (ClientB.run_job self job_type inputs policy_id, JobResult);
          (ClientB.create_edge self key from_node to_node type metadata,
            CreateEdgeResponse);
          (ClientB.get_edge self id, Edge);
          (ClientB.create_node self key type ndata metadata nid,
            CreateNodeResponse);
          (ClientB.get_node self id, Node);
          (ClientB.search_nodes self query limit, SearchResponse);
          (ClientB.interpret self text olimit, InterpretResponse) ] ->
      run m w = ClientB.build cls data)
  /\ (forall cls,
        match data with
        | PDict d => ClientB.build cls data = validate cls d
        | _ => exists msg, ClientB.build cls data = Raise (Exc TypeError msg None)
        end).
Proof.
  intros Hw Hs Hj. split.
  - intros m cls Hm. simpl in Hm. unfold run.
    repeat (destruct Hm as [[= <- <-]|Hm];
            [ unfold ClientB.get_genome, ClientB.get_health, ClientB.run_job,
                ClientB.create_edge, ClientB.get_edge, ClientB.create_node,
                ClientB.get_node, ClientB.search_nodes, ClientB.interpret;
              first
                [ by rewrite (bind_eq _ _ _ _ _ (ClientB_get_ok _ _ _ w r _ Hw Hs Hj))
                | by rewrite (bind_eq _ _ _ _ _ (ClientB_post_ok _ _ _ w r _ Hw Hs Hj)) ]
            | ]).
    destruct Hm.
  - intros cls. unfold ClientB.build, kwargs.
    destruct data; simpl; first [reflexivity | eexists; reflexivity].
Qed.

Lemma models_built_from_whole_body_witness :
  (forall m cls,
      In (m, cls)
        [ (ClientB.get_genome (P := unvalidated) asyncB0, GenomeMetadata);
          (ClientB.get_health (P := unvalidated) asyncB0, HealthResponse);
          (ClientB.run_job (P := unvalidated) asyncB0 "index" None None, JobResult);
          (ClientB.create_edge (P := unvalidated) asyncB0 "k" "n1" "n2" "rel" None,
            CreateEdgeResponse);
          (ClientB.get_edge (P := unvalidated) asyncB0 "e1", Edge);
          (ClientB.create_node (P := unvalidated) asyncB0 "k" "rel" None None None,
            CreateNodeResponse);
          (ClientB.get_node (P := unvalidated) asyncB0 "e1", Node);
          (ClientB.search_nodes (P := unvalidated) asyncB0 "q" 10, SearchResponse);
          (ClientB.interpret (P := unvalidated) asyncB0 "t" None, InterpretResponse) ] ->
      run m (mock (ok (PList []))) = ClientB.build (P := unvalidated) cls (PList []))
  /\ (forall cls,
        match PList [] with
        | PDict d => ClientB.build (P := unvalidated) cls (PList []) = validate cls d
        | _ => exists msg,
            ClientB.build (P := unvalidated) cls (PList [])
              = Raise (Exc TypeError msg None)
        end).
Proof.
  apply (models_built_from_whole_body (P := unvalidated) asyncB0
           "e1" "t" "q" "index" None None None None None "k" "n1" "n2" "rel"
           10 None (mock (ok (PList [])))
           (mkResponse 200 "OK" "http://localhost:3000/" (Some (PList [])))).
  - intros rq. reflexivity.
  - unfold success. simpl. lia.
  - reflexivity.
Defined.

(** X15: [get_job_logs], [get_hyperedge], [get_node_edges],
    [get_node_hyperedges] and [get_openapi] of Client B return no value on
    any transport at all: either the exchange fails, or the alias call
    raises. *)
Theorem dict_alias_methods_never_return (self : ClientB.MathisonClient)
    (job_id : option string) (limit : option Z) (id : string) (w : World) :
  (forall v, run (ClientB.get_job_logs self job_id limit) w <> Ret v)
  /\ (forall v, run (ClientB.get_hyperedge self id) w <> Ret v)
  /\ (forall v, run (ClientB.get_node_edges self id) w <> Ret v)
  /\ (forall v, run (ClientB.get_node_hyperedges self id) w <> Ret v)
  /\ (forall v, run (ClientB.get_openapi self) w <> Ret v).
Proof.
  unfold run, ClientB.get_job_logs, ClientB.get_hyperedge,
    ClientB.get_node_edges, ClientB.get_node_hyperedges, ClientB.get_openapi.
  repeat split; intros v; unfold bind, lift;
    match goal with |- context [ClientB._get ?s ?p ?q w] =>
      destruct (ClientB._get s p q w) as [[data|e] w']
    end; simpl; try discriminate;
    destruct (Dict_str_Any_raises data) as [msg ->]; discriminate.
Qed.

(** X16: the payloads of [create_edge] and [create_node].  The arguments
    [from_node] and [to_node] travel under the keys "from" and "to"; the
    idempotency key and the type are always sent; "metadata", "data" and
    "id" are sent exactly when their argument is truthy, so an empty
    dictionary is left out like a missing one. *)
Theorem graph_creation_payloads {P : Pydantic} (self : ClientB.MathisonClient)
    (key from_node to_node type : string) (metadata data : option dict)
    (id : option string) (w : World) :
  (exists payload,
      sent (after (ClientB.create_edge self key from_node to_node type metadata) w)
        = sent w ++ [requestB self "POST" "/memory/edges" None (Some payload)]
      /\ payload !! "idempotency_key" = Some (PStr key)
      /\ payload !! "from" = Some (PStr from_node)
      /\ payload !! "to" = Some (PStr to_node)
      /\ payload !! "type" = Some (PStr type)
      /\ payload !! "metadata" = (if truthy metadata then PDict <$> metadata else None)
      /\ payload !! "from_node" = None
      /\ payload !! "to_node" = None)
  /\ (exists payload,
         sent (after (ClientB.create_node self key type data metadata id) w)
           = sent w ++ [requestB self "POST" "/memory/nodes" None (Some payload)]
         /\ payload !! "idempotency_key" = Some (PStr key)
         /\ payload !! "type" = Some (PStr type)
         /\ payload !! "data" = (if truthy data then PDict <$> data else None)
         /\ payload !! "metadata"
              = (if truthy metadata then PDict <$> metadata else None)
         /\ payload !! "id" = (if truthy id then PStr <$> id else None))
  /\ ClientB.create_node self key type (Some ∅) (Some ∅) (Some "") w
       = ClientB.create_node self key type None None None w.
Proof.
  split; [|split].
  - unfold after, ClientB.create_edge. rewrite after_then_lift, ClientB_post_eq.
    eexists. split; [reflexivity|].
    destruct (truthy metadata) eqn:Em;
      repeat split; try reflexivity.
    destruct metadata; [reflexivity|discriminate].
  - unfold after, ClientB.create_node. rewrite after_then_lift, ClientB_post_eq.
    eexists. split; [reflexivity|].
    destruct (truthy metadata) eqn:Em, (truthy data) eqn:Ed, (truthy id) eqn:Ei;
      repeat split; try reflexivity;
      first [ destruct metadata; [reflexivity|discriminate]
            | destruct data; [reflexivity|discriminate]
            | destruct id; [reflexivity|discriminate] ].
  - unfold ClientB.create_node. rewrite truthy_Some_empty. reflexivity.
Qed.

(** X17: a [limit] of zero.  [interpret] tests the truth of [limit], so
    [limit=0] gives the call that no limit gives; [search_nodes] tests
    nothing and always sends both "q" and "limit", zero included. *)
Theorem limit_zero {P : Pydantic} (self : ClientB.MathisonClient)
    (text query : string) (limit : Z) (w : World) :
  ClientB.interpret self text (Some 0%Z) w = ClientB.interpret self text None w
  /\ exists ps,
       sent (after (ClientB.search_nodes self query limit) w)
         = sent w ++ [requestB self "GET" "/memory/search" (Some ps) None]
       /\ ps !! "q" = Some (PStr query)
       /\ ps !! "limit" = Some (PInt limit).
Proof.
  split; [reflexivity|].
  unfold after, ClientB.search_nodes. rewrite after_then_lift, ClientB_get_eq.
  eexists. split; [reflexivity|]. split; reflexivity.
Qed.

(** ** Beams: single-beam methods *)

(** X18: on a success answer, [get_beam], [create_beam] and [update_beam]
    of Client A all read the body the same way: when it is a complete beam
    object they return its eight fields as they are, so [create_beam] and
    [update_beam] report the server's beam and not the arguments sent. *)
Theorem single_beam_methods_result (self : ClientA.MathisonClient)
    (id kind title body : string) (tags : list string)
    (beam_id : option string) (pinned : option bool)
    (utitle ubody : option string) (utags : option (list string))
    (w : World) (r : Response) (data : pyval) :
  answers w r -> success r -> json_body r = Some data ->
  is_beam_json data ->
  exists b,
    beam_fields_of data b
    /\ run (ClientA.get_beam self id) w = Ret b
    /\ run (ClientA.create_beam self kind title tags body beam_id pinned) w = Ret b
    /\ run (ClientA.update_beam self id utitle utags ubody) w = Ret b.
Proof.
  intros Hw Hs Hj Hd.
  destruct (Beam_of_fields data Hd) as (b & Eb & Hb).
  exists b. split; [exact Hb|].
  unfold run, ClientA.get_beam, ClientA.create_beam, ClientA.update_beam.
  rewrite !(bind_eq _ _ _ _ _ (ClientA_request_ok _ _ _ _ _ w r _ Hw Hs Hj)).
  unfold lift. rewrite Eb. repeat split.
Qed.

Lemma single_beam_methods_result_witness :
  exists b,
    beam_fields_of (beam_json "b-7" "kept" true) b
    /\ run (ClientA.get_beam clientA0 "b-7") (mock (ok (beam_json "b-7" "kept" true)))
         = Ret b
    /\ run (ClientA.create_beam clientA0 "note" "sent" [] "" None (Some false))
         (mock (ok (beam_json "b-7" "kept" true))) = Ret b
    /\ run (ClientA.update_beam clientA0 "b-7" (Some "sent") None None)
         (mock (ok (beam_json "b-7" "kept" true))) = Ret b.
Proof.
  apply (single_beam_methods_result clientA0 "b-7" "note" "sent" "" [] None
           (Some false) (Some "sent") None None
           (mock (ok (beam_json "b-7" "kept" true)))
           (mkResponse 200 "OK" "http://localhost:3000/"
              (Some (beam_json "b-7" "kept" true)))).
  - intros rq. reflexivity.
  - unfold success. simpl. lia.
  - reflexivity.
  - eexists. split; [reflexivity|]. repeat constructor; eexists; reflexivity.
Defined.
